(** * openfigi-go: request validation and construction

    A shallow embedding of [builder.go] and [openfigi.go] of the OpenFIGI
    client, and the properties of its validation engine: interval checks,
    enumerated-value membership, mutually exclusive and conditional fields,
    the builders' [Build] and the cursor-driven [Next].

    Conventions.  A Go [string] is a [string] (a sequence of bytes); a nil-able
    pointer [*T] that the package never writes through is an [option T]; a
    pair of results [(x, err error)] is a pair whose second component is an
    [option error], [None] standing for a nil error; a run-time panic is the
    [None] of an [option] result. *)

From Stdlib Require Import ZArith String Ascii List Bool Lia.
From Stdlib Require Import Floats.SpecFloat.
From stdpp Require Import base decidable option strings gmap.
Import ListNotations.

Local Open Scope string_scope.
Local Open Scope Z_scope.
Local Open Scope list_scope.

(** ** float64

    Go's [float64] is IEEE 754 binary64; values are taken in the Standard
    Library's specification of IEEE floats.  Only what [builder.go] uses is
    defined: [math.Inf], [math.IsInf] and the comparison [>]. *)

Module float64.

Definition t : Type := spec_float.

(** [math.Inf(sign)]: positive infinity if [sign >= 0], else negative. *)
Definition Inf (sign : Z) : t := S754_infinity (sign <? 0).

(** [math.IsInf(f, sign)]: with [sign > 0] whether [f] is positive
    infinity, with [sign < 0] whether it is negative infinity, with
    [sign == 0] whether it is either. *)
Definition IsInf (f : t) (sign : Z) : bool :=
  match f with
  | S754_infinity neg =>
      if sign >? 0 then negb neg else if sign <? 0 then neg else true
  | _ => false
  end.

(** [a > b]: false as soon as one operand is a NaN. *)
Definition gt (a b : t) : bool :=
  match SFcompare a b with
  | Some Gt => true
  | _ => false
  end.

(** [a <= b]. *)
Definition le (a b : t) : bool := SFleb a b.

Definition NaN : t := S754_nan.

(** A real number: neither an infinity nor a NaN. *)
Definition is_real (f : t) : bool :=
  match f with
  | S754_zero _ | S754_finite _ _ _ => true
  | _ => false
  end.

(** The binary64 values among the specification floats. *)
Definition is_binary64 (f : t) : bool := valid_binary 53 1024 f.

(** Small integers as floats, for examples: [of_pos p] is [p] for
    [p < 2^53], written with a 53-bit mantissa. *)
Definition of_pos (p : positive) : t :=
  let d := Z.log2 (Z.pos p) in
  S754_finite false (Pos.shiftl p (Z.to_N (52 - d))) (d - 52).

End float64.

(** ** time

    [time.Parse(time.DateOnly, value)] of Go's standard library, specialised
    to the layout ["2006-01-02"].  The parsed [Time] is midnight UTC of a
    civil date, so it is kept as that date and [After] compares dates. *)

Module time.

Record Time : Type := Date { year : Z; month : Z; day : Z }.

(** [isDigit(s, i)]: is there a decimal digit at byte [i] of [s]. *)
Definition isDigit (s : string) (i : nat) : bool :=
  match String.get i s with
  | Some c => (48 <=? Z.of_nat (nat_of_ascii c)) && (Z.of_nat (nat_of_ascii c) <=? 57)
  | None => false
  end.

Definition digit (c : ascii) : Z := Z.of_nat (nat_of_ascii c) - 48.

(** [getnum(s, fixed)]: a one- or two-digit number at the head of [s]; two
    digits are required when [fixed]. *)
Definition getnum (s : string) (fixed : bool) : option (Z * string) :=
  if negb (isDigit s 0) then None
  else if negb (isDigit s 1) then
    if fixed then None
    else match s with
         | String c0 rest => Some (digit c0, rest)
         | EmptyString => None
         end
  else match s with
       | String c0 (String c1 rest) => Some (digit c0 * 10 + digit c1, rest)
       | _ => None
       end.

(** The [stdLongYear] chunk: exactly four digits. *)
Definition getyear (s : string) : option (Z * string) :=
  match s with
  | String c0 (String c1 (String c2 (String c3 rest))) =>
      if isDigit s 0 && isDigit s 1 && isDigit s 2 && isDigit s 3
      then Some (((digit c0 * 10 + digit c1) * 10 + digit c2) * 10 + digit c3, rest)
      else None
  | _ => None
  end.

(** [skip(value, prefix)] for the one-byte prefix ["-"]. *)
Definition skip_dash (s : string) : option string :=
  match s with
  | String c rest => if Ascii.eqb c "-"%char then Some rest else None
  | EmptyString => None
  end.

Definition isLeap (y : Z) : bool :=
  (y mod 4 =? 0) && (negb (y mod 100 =? 0) || (y mod 400 =? 0)).

Definition daysIn (m : Z) (y : Z) : Z :=
  if (m =? 2) && isLeap y then 29
  else if m =? 2 then 28
  else if (m =? 4) || (m =? 6) || (m =? 9) || (m =? 11) then 30
  else 31.

(** The civil date written by [value] in the layout ["2006-01-02"]: four
    digits, a dash, two digits of a month in 1..12, a dash, two digits of
    a day of that month, and nothing else. *)
Definition parse_DateOnly (value : string) : option Time :=
  match getyear value with
  | None => None
  | Some (y, value) =>
  match skip_dash value with
  | None => None
  | Some value =>
  match getnum value true with
  | None => None
  | Some (m, value) =>
  if (m <=? 0) || (12 <? m) then None else
  match skip_dash value with
  | None => None
  | Some value =>
  match getnum value true with
  | None => None
  | Some (d, value) =>
  if negb (String.eqb value "") then None
  else if (d <? 1) || (daysIn m y <? d) then None
  else Some (Date y m d)
  end end end end end.

(** The zero [Time{}]: January 1 of year 1. *)
Definition zero : Time := Date 1 1 1.

(** [*time.ParseError] *)
Inductive ParseError : Type := parseError (value : string).

(** [time.Parse(time.DateOnly, value)]: the time and a nil error, or the
    zero time and a parse error. *)
Definition Parse_DateOnly (value : string) : Time * option ParseError :=
  match parse_DateOnly value with
  | Some t => (t, None)
  | None => (zero, Some (parseError value))
  end.

(** [t.After(u)]: is the instant [t] after [u]. *)
Definition After (t u : Time) : bool :=
  (year u <? year t)
  || ((year u =? year t)
      && ((month u <? month t)
          || ((month u =? month t) && (day u <? day t)))).

End time.

(** ** Errors

    One constructor per [fmt.Errorf] call site of the package, and the
    failures of the transport. *)

Inductive error : Type :=
| ErrBadEnum (field : string)
| ErrExchMicTogether
| ErrNullInterval
| ErrBadInterval
| ErrBadDateFormat
| ErrExpirationOnlyOption
| ErrMaturityOnlyPool
| ErrBadIdType (idType : string)
| ErrSecurityType2Required
| ErrNoMoreResults
| ErrMarshal
| ErrTransport
| ErrStatus (code : Z)
| ErrUnmarshal.

(** The classes of failure by which the package's errors are told apart. *)
Inductive ErrorKind : Type :=
| InvalidEnumValue (field : string)
| MutuallyExclusiveFields
| InvalidInterval
| InvalidDateFormat
| ConditionalFieldViolation (field requiredBy : string)
| MissingRequiredField (field : string)
| NoMoreResults
| TransportFailure.

Definition kind (e : error) : ErrorKind :=
  match e with
  | ErrBadEnum field => InvalidEnumValue field
  | ErrExchMicTogether => MutuallyExclusiveFields
  | ErrNullInterval => InvalidInterval
  | ErrBadInterval => InvalidInterval
  | ErrBadDateFormat => InvalidDateFormat
  | ErrExpirationOnlyOption => ConditionalFieldViolation "expiration" "Option"
  | ErrMaturityOnlyPool => ConditionalFieldViolation "maturity" "Pool"
  | ErrBadIdType _ => InvalidEnumValue "idType"
  | ErrSecurityType2Required => MissingRequiredField "securityType2"
  | ErrNoMoreResults => NoMoreResults
  | ErrMarshal | ErrTransport | ErrStatus _ | ErrUnmarshal => TransportFailure
  end.

(** [err != nil] *)
Definition is_Some_b {A : Type} (o : option A) : bool :=
  match o with Some _ => true | None => false end.

(** ** Intervals *)

(** [type interval[T constraints.Ordered] [2]T] *)
Definition interval (T : Type) : Type := (T * T)%type.

(** [type validator interface { validate() error }] *)
Class validator (A : Type) : Type := validate : A -> option error.

(** [interval[T].validate], the branch [case float64] of its type switch. *)
#[export] Instance interval_float64_validate : validator (interval float64.t) :=
  fun iv =>
    let start := fst iv in
    let end_ := snd iv in
    if float64.IsInf start (-1) && float64.IsInf end_ 1 then
      Some ErrNullInterval
    else if float64.gt start end_ then
      Some ErrBadInterval
    else None.

(** [interval[T].validate], the branch [case string] of its type switch. *)
#[export] Instance interval_string_validate : validator (interval string) :=
  fun iv =>
    let start := fst iv in
    let end_ := snd iv in
    if String.eqb start "" && String.eqb end_ "" then
      Some ErrNullInterval
    else
      let '(s, err) := time.Parse_DateOnly start in
      if negb (String.eqb start "") && is_Some_b err then Some ErrBadDateFormat
      else
        let '(e, err) := time.Parse_DateOnly end_ in
        if negb (String.eqb end_ "") && is_Some_b err then Some ErrBadDateFormat
        else if negb (String.eqb start "") && negb (String.eqb end_ "")
                && time.After s e
        then Some ErrBadInterval
        else None.

(** An interface value of type [validator] that holds a pointer, nil or
    not, to a value with a [validate] method. *)
Inductive validator_value : Type :=
| ptr {A : Type} `{validator A} (p : option A).

(** The loop of [BaseItem.validate] over a slice of validators: nil pointers
    are passed over, the first error ends the loop. *)
Fixpoint validate_each (vs : list validator_value) : option error :=
  match vs with
  | [] => None
  | ptr None :: vs => validate_each vs
  | ptr (Some iv) :: vs =>
      match validate iv with
      | Some err => Some err
      | None => validate_each vs
      end
  end.

(** ** Dynamic values

    The values that a caller can put behind an [any]; the package inspects
    only whether one is nil, a [float64] or a [string]. *)

Inductive any : Type :=
| any_nil
| any_float64 (f : float64.t)
| any_string (s : string)
| any_int (n : Z)
| any_bool (b : bool).

(** [intepretRange[float64]]: an absent bound becomes the infinity of its
    side; a bound that is not a [float64] panics in the final type
    assertion. *)
Definition intepretRange_float64 (iv : any * any) : option (interval float64.t) :=
  let i0 := match fst iv with
            | any_nil => any_float64 (float64.Inf (-1))
            | x => x
            end in
  let i1 := match snd iv with
            | any_nil => any_float64 (float64.Inf 1)
            | x => x
            end in
  match i0, i1 with
  | any_float64 a, any_float64 b => Some (a, b)
  | _, _ => None
  end.

(** [intepretRange[string]]: an absent bound becomes the empty string. *)
Definition intepretRange_string (iv : any * any) : option (interval string) :=
  let i0 := match fst iv with any_nil => any_string "" | x => x end in
  let i1 := match snd iv with any_nil => any_string "" | x => x end in
  match i0, i1 with
  | any_string a, any_string b => Some (a, b)
  | _, _ => None
  end.

(** ** Reference sets

    The generated hash sets of the values that the remote API accepts for
    each enumerated field.  The tables are produced by [go generate] and are
    not part of the sources; every definition below takes them as a
    parameter. *)

Record ReferenceSets : Type := {
  exchCodeSet : gset string;
  micCodeSet : gset string;
  currencySet : gset string;
  marketSecDesSet : gset string;
  securityTypeSet : gset string;
  securityType2Set : gset string;
  stateCodeSet : gset string;
  idTypeSet : gset string
}.

(** [set.Has(value)] *)
Definition Has (set : gset string) (value : string) : bool :=
  bool_decide (value ∈ set).

(** ** BaseItem *)

Module BaseItem.

Record t : Type := mk {
  ExchCode : string;
  MicCode : string;
  Currency : string;
  MarketSecDes : string;
  SecurityType : string;
  SecurityType2 : string;
  IncludeUnlistedEquities : bool;
  OptionType : string;
  Strike : option (interval float64.t);
  ContractSize : option (interval float64.t);
  Coupon : option (interval float64.t);
  Expiration : option (interval string);
  Maturity : option (interval string);
  StateCode : string
}.

(** [BaseItem{}] *)
Definition zero : t :=
  mk "" "" "" "" "" "" false "" None None None None None "".

(** Assignment to one field: [item.F = v]. *)
Definition with_ExchCode (v : string) (item : t) : t :=
  mk v (MicCode item) (Currency item) (MarketSecDes item)
    (SecurityType item) (SecurityType2 item) (IncludeUnlistedEquities item)
    (OptionType item) (Strike item) (ContractSize item) (Coupon item)
    (Expiration item) (Maturity item) (StateCode item).
Definition with_MicCode (v : string) (item : t) : t :=
  mk (ExchCode item) v (Currency item) (MarketSecDes item)
    (SecurityType item) (SecurityType2 item) (IncludeUnlistedEquities item)
    (OptionType item) (Strike item) (ContractSize item) (Coupon item)
    (Expiration item) (Maturity item) (StateCode item).
Definition with_Currency (v : string) (item : t) : t :=
  mk (ExchCode item) (MicCode item) v (MarketSecDes item)
    (SecurityType item) (SecurityType2 item) (IncludeUnlistedEquities item)
    (OptionType item) (Strike item) (ContractSize item) (Coupon item)
    (Expiration item) (Maturity item) (StateCode item).
Definition with_MarketSecDes (v : string) (item : t) : t :=
  mk (ExchCode item) (MicCode item) (Currency item) v (SecurityType item)
    (SecurityType2 item) (IncludeUnlistedEquities item) (OptionType item)
    (Strike item) (ContractSize item) (Coupon item) (Expiration item)
    (Maturity item) (StateCode item).
Definition with_SecurityType (v : string) (item : t) : t :=
  mk (ExchCode item) (MicCode item) (Currency item) (MarketSecDes item) v
    (SecurityType2 item) (IncludeUnlistedEquities item) (OptionType item)
    (Strike item) (ContractSize item) (Coupon item) (Expiration item)
    (Maturity item) (StateCode item).
Definition with_SecurityType2 (v : string) (item : t) : t :=
  mk (ExchCode item) (MicCode item) (Currency item) (MarketSecDes item)
    (SecurityType item) v (IncludeUnlistedEquities item) (OptionType item)
    (Strike item) (ContractSize item) (Coupon item) (Expiration item)
    (Maturity item) (StateCode item).
Definition with_IncludeUnlistedEquities (v : bool) (item : t) : t :=
  mk (ExchCode item) (MicCode item) (Currency item) (MarketSecDes item)
    (SecurityType item) (SecurityType2 item) v (OptionType item)
    (Strike item) (ContractSize item) (Coupon item) (Expiration item)
    (Maturity item) (StateCode item).
Definition with_OptionType (v : string) (item : t) : t :=
  mk (ExchCode item) (MicCode item) (Currency item) (MarketSecDes item)
    (SecurityType item) (SecurityType2 item) (IncludeUnlistedEquities item)
    v (Strike item) (ContractSize item) (Coupon item) (Expiration item)
    (Maturity item) (StateCode item).
Definition with_Strike (v : option (interval float64.t)) (item : t) : t :=
  mk (ExchCode item) (MicCode item) (Currency item) (MarketSecDes item)
    (SecurityType item) (SecurityType2 item) (IncludeUnlistedEquities item)
    (OptionType item) v (ContractSize item) (Coupon item) (Expiration item)
    (Maturity item) (StateCode item).
Definition with_ContractSize (v : option (interval float64.t)) (item : t) : t :=
  mk (ExchCode item) (MicCode item) (Currency item) (MarketSecDes item)
    (SecurityType item) (SecurityType2 item) (IncludeUnlistedEquities item)
    (OptionType item) (Strike item) v (Coupon item) (Expiration item)
    (Maturity item) (StateCode item).
Definition with_Coupon (v : option (interval float64.t)) (item : t) : t :=
  mk (ExchCode item) (MicCode item) (Currency item) (MarketSecDes item)
    (SecurityType item) (SecurityType2 item) (IncludeUnlistedEquities item)
    (OptionType item) (Strike item) (ContractSize item) v (Expiration item)
    (Maturity item) (StateCode item).
Definition with_Expiration (v : option (interval string)) (item : t) : t :=
  mk (ExchCode item) (MicCode item) (Currency item) (MarketSecDes item)
    (SecurityType item) (SecurityType2 item) (IncludeUnlistedEquities item)
    (OptionType item) (Strike item) (ContractSize item) (Coupon item) v
    (Maturity item) (StateCode item).
Definition with_Maturity (v : option (interval string)) (item : t) : t :=
  mk (ExchCode item) (MicCode item) (Currency item) (MarketSecDes item)
    (SecurityType item) (SecurityType2 item) (IncludeUnlistedEquities item)
    (OptionType item) (Strike item) (ContractSize item) (Coupon item)
    (Expiration item) v (StateCode item).
Definition with_StateCode (v : string) (item : t) : t :=
  mk (ExchCode item) (MicCode item) (Currency item) (MarketSecDes item)
    (SecurityType item) (SecurityType2 item) (IncludeUnlistedEquities item)
    (OptionType item) (Strike item) (ContractSize item) (Coupon item)
    (Expiration item) (Maturity item) v.

(** [func (item *BaseItem) validate() error] *)
Definition validate (sets : ReferenceSets) (item : t) : option error :=
  if negb (String.eqb (ExchCode item) "")
     && negb (Has (exchCodeSet sets) (ExchCode item))
  then Some (ErrBadEnum "exchCode")
  else if negb (String.eqb (MicCode item) "")
          && negb (Has (micCodeSet sets) (MicCode item))
  then Some (ErrBadEnum "micCode")
  else if negb (String.eqb (Currency item) "")
          && negb (Has (currencySet sets) (Currency item))
  then Some (ErrBadEnum "currency")
  else if negb (String.eqb (MarketSecDes item) "")
          && negb (Has (marketSecDesSet sets) (MarketSecDes item))
  then Some (ErrBadEnum "marketSecDes")
  else if negb (String.eqb (SecurityType item) "")
          && negb (Has (securityTypeSet sets) (SecurityType item))
  then Some (ErrBadEnum "securityType")
  else if negb (String.eqb (SecurityType2 item) "")
          && negb (Has (securityType2Set sets) (SecurityType2 item))
  then Some (ErrBadEnum "securityType2")
  else if negb (String.eqb (StateCode item) "")
          && negb (Has (stateCodeSet sets) (StateCode item))
  then Some (ErrBadEnum "stateCode")
  else
  (* exchCode and micCode cannot coexist *)
  if negb (String.eqb (ExchCode item) "")
     && negb (String.eqb (MicCode item) "")
  then Some ErrExchMicTogether
  else
  (* Validate intervals *)
  match validate_each [ptr (Strike item); ptr (ContractSize item);
                       ptr (Coupon item); ptr (Expiration item);
                       ptr (Maturity item)] with
  | Some err => Some err
  | None =>
  (* Only option has expiration *)
  if negb (String.eqb (SecurityType2 item) "Option")
     && is_Some_b (Expiration item)
  then Some ErrExpirationOnlyOption
  else
  (* Only pool has maturity *)
  if negb (String.eqb (SecurityType2 item) "Pool")
     && is_Some_b (Maturity item)
  then Some ErrMaturityOnlyPool
  else None
  end.

End BaseItem.

(** ** MappingItem *)

Module MappingItem.

Record t : Type := mk {
  BaseItem_ : BaseItem.t;
  Type_ : string;
  Value : any
}.

(** [MappingItem{}] *)
Definition zero : t := mk BaseItem.zero "" any_nil.

(** [func (item *MappingItem) validate() error] *)
Definition validate (sets : ReferenceSets) (item : t) : option error :=
  match BaseItem.validate sets (BaseItem_ item) with
  | Some err => Some err
  | None =>
  if negb (Has (idTypeSet sets) (Type_ item))
  then Some (ErrBadIdType (Type_ item))
  else if (String.eqb (Type_ item) "BASE_TICKER"
           || String.eqb (Type_ item) "ID_EXCH_SYMBOL")
          && String.eqb (BaseItem.SecurityType2 (BaseItem_ item)) ""
  then Some ErrSecurityType2Required
  else None
  end.

End MappingItem.

(** ** Builders

    A method with a pointer receiver is a function of the receiver's state
    that returns its results together with the receiver's new state.  The
    setters return the receiver itself, for chaining. *)

Module BaseItemBuilder.

Record t : Type := mk { item : BaseItem.t }.

(** [BaseItem{}.GetBuilder()] *)
Definition GetBuilder : t := mk BaseItem.zero.

Definition SetExchCode (exchCode : string) (b : t) : t :=
  mk (BaseItem.with_ExchCode exchCode (item b)).

Definition SetMicCode (micCode : string) (b : t) : t :=
  mk (BaseItem.with_MicCode micCode (item b)).

Definition SetCurrency (currency : string) (b : t) : t :=
  mk (BaseItem.with_Currency currency (item b)).

Definition SetMarketSecDes (marketSecDes : string) (b : t) : t :=
  mk (BaseItem.with_MarketSecDes marketSecDes (item b)).

Definition SetSecurityType (securityType : string) (b : t) : t :=
  mk (BaseItem.with_SecurityType securityType (item b)).

Definition SetSecurityType2 (securityType2 : string) (b : t) : t :=
  mk (BaseItem.with_SecurityType2 securityType2 (item b)).

Definition SetIncludeUnlistedEquities (include : bool) (b : t) : t :=
  mk (BaseItem.with_IncludeUnlistedEquities include (item b)).

Definition SetOptionType (optionType : string) (b : t) : t :=
  mk (BaseItem.with_OptionType optionType (item b)).

(** Panics when a bound is neither nil nor a [float64]. *)
Definition SetStrike (strike : any * any) (b : t) : option t :=
  match intepretRange_float64 strike with
  | Some strikeRange => Some (mk (BaseItem.with_Strike (Some strikeRange) (item b)))
  | None => None
  end.

(** Panics when a bound is neither nil nor a [float64]. *)
Definition SetContractSize (contractSize : any * any) (b : t) : option t :=
  match intepretRange_float64 contractSize with
  | Some contractSizeRange => Some (mk (BaseItem.with_ContractSize (Some contractSizeRange) (item b)))
  | None => None
  end.

(** Panics when a bound is neither nil nor a [float64]. *)
Definition SetCoupon (coupon : any * any) (b : t) : option t :=
  match intepretRange_float64 coupon with
  | Some couponRange => Some (mk (BaseItem.with_Coupon (Some couponRange) (item b)))
  | None => None
  end.

(** Panics when a bound is neither nil nor a [string]. *)
Definition SetExpiration (expiration : any * any) (b : t) : option t :=
  match intepretRange_string expiration with
  | Some expirationRange => Some (mk (BaseItem.with_Expiration (Some expirationRange) (item b)))
  | None => None
  end.

(** Panics when a bound is neither nil nor a [string]. *)
Definition SetMaturity (maturity : any * any) (b : t) : option t :=
  match intepretRange_string maturity with
  | Some maturityRange => Some (mk (BaseItem.with_Maturity (Some maturityRange) (item b)))
  | None => None
  end.

Definition SetStateCode (stateCode : string) (b : t) : t :=
  mk (BaseItem.with_StateCode stateCode (item b)).

(** [func (b *BaseItemBuilder) Build() (item BaseItem, err error)] *)
Definition Build (sets : ReferenceSets) (b : t)
  : (BaseItem.t * option error) * t :=
  let item := item b in
  let err := BaseItem.validate sets item in
  ((item, err), b).

End BaseItemBuilder.

Module MappingItemBuilder.

Record t : Type := mk {
  BaseItemBuilder_ : BaseItemBuilder.t;
  item : MappingItem.t
}.

(** [MappingItem{}.GetBuilder(idType, value)] *)
Definition GetBuilder (idType : string) (value : any) : t :=
  mk BaseItemBuilder.GetBuilder (MappingItem.mk BaseItem.zero idType value).

(** A setter of the embedded [BaseItemBuilder], promoted to the mapping
    builder: it acts on the embedded builder only. *)
Definition promoted (set : BaseItemBuilder.t -> BaseItemBuilder.t) (m : t) : t :=
  mk (set (BaseItemBuilder_ m)) (item m).

(** [func (m *MappingItemBuilder) Build() (item MappingItem, err error)] *)
Definition Build (sets : ReferenceSets) (m : t)
  : (MappingItem.t * option error) * t :=
  (* m.item.BaseItem = m.BaseItemBuilder.item *)
  let m := mk (BaseItemBuilder_ m)
              (MappingItem.mk (BaseItemBuilder.item (BaseItemBuilder_ m))
                              (MappingItem.Type_ (item m))
                              (MappingItem.Value (item m))) in
  let result := item m in
  let err := MappingItem.validate sets (item m) in
  ((result, err), m).

End MappingItemBuilder.

(** ** Responses *)

Module FIGIObject.

Record t : Type := mk {
  FIGI : string;
  SecurityType : string;
  MarketSector : string;
  Ticker : string;
  Name : string;
  UniqueID : string;
  ExchangeCode : string;
  ShareClassFIGI : string;
  CompositeFIGI : string;
  SecurityType2 : string;
  SecurityDescription : string;
  Metadata : string
}.

End FIGIObject.

Module SearchResponse.

Record t : Type := mk {
  Data : list FIGIObject.t;
  Error : string;
  NextHash : string;
  baseitem : BaseItem.t;
  query : string
}.

(** [SearchResponse{}] *)
Definition zero : t := mk [] "" "" BaseItem.zero "".

End SearchResponse.

Module FilterResponse.

Record t : Type := mk {
  SearchResponse_ : SearchResponse.t;
  Total : Z
}.

(** [FilterResponse{}] *)
Definition zero : t := mk SearchResponse.zero 0.

End FilterResponse.

(** ** API calls

    The remote side is reached through three operations that are not the
    package's own: [json.Marshal], [http.DefaultClient.Do] and
    [json.Unmarshal].  They are parameters of this section.  The state that
    the calls thread is the package configuration, the state of the remote
    server, and the requests sent so far. *)

Record searchOrFilterRequest : Type := {
  BaseItem_ : BaseItem.t;
  Query : string;
  Start : string
}.

(** What the package puts in an [http.Request]. *)
Record Request : Type := {
  Method : string;
  URL : string;
  Header : list (string * string);
  Body : string
}.

(** The request of [postBaseItem]:
    [http.NewRequest("POST", APIBaseUrl()+endpoint, body)] with its content
    type and, when there is a key, the key.  The code drops the error of
    [http.NewRequest], which arises only from a base URL that does not
    parse; the base URL is taken to parse. *)
Definition newRequest (url key endpoint jsonData : string) : Request :=
  {| Method := "POST";
     URL := url +:+ endpoint;
     Header := ("Content-Type", "application/json")
               :: (if negb (String.eqb key "")
                   then [("X-OPENFIGI-APIKEY", key)] else []);
     Body := jsonData |}.

(** What [http.DefaultClient.Do] gives back: an error, or a response with
    its status code and body. *)
Inductive DoResult : Type :=
| DoError
| DoResponse (StatusCode : Z) (body : string).

(** The status codes that the package reports as errors (part_000); of the
    explanations, which are only logged, the first line is kept. *)
Definition httpStatusMap : gmap Z string :=
  list_to_map
    [(400, "Bad Request. "); (401, "Unauthorized. Invalid API Key");
     (404, "Invalid URL"); (405, "Invalid HTTP method");
     (406, "Unsupported 'Accept' type"); (413, "Payload too large.");
     (415, "Invalid 'Content-Type' header"); (429, "Rate limit exceeded.");
     (500, "Internal Server Error"); (503, "Service Unavailable")].

(** The package-level variables [apiUrl] and [apiKey]. *)
Record Config : Type := { apiUrl : string; apiKey : string }.

Record World (Server : Type) : Type := {
  config : Config;
  server : Server;
  sent : list Request
}.
Arguments config {Server} _.
Arguments server {Server} _.
Arguments sent {Server} _.

Section Calls.

Context {Server : Type}.

(** [json.Marshal] of a request; [None] is its error. *)
Variable json_Marshal : searchOrFilterRequest -> option string.
(** [http.DefaultClient.Do] against the remote server. *)
Variable http_Do : Request -> Server -> DoResult * Server.
(** [json.Unmarshal(body, &res)] into a zero [SearchResponse] and into a
    zero [FilterResponse]. *)
Variable json_Unmarshal_SearchResponse : string -> SearchResponse.t * option error.
Variable json_Unmarshal_FilterResponse : string -> FilterResponse.t * option error.

(** Computations that read and change the world. *)
Definition IO (A : Type) : Type := World Server -> A * World Server.

Definition ret {A : Type} (a : A) : IO A := fun w => (a, w).

Definition bind {A B : Type} (m : IO A) (k : A -> IO B) : IO B :=
  fun w => let '(a, w') := m w in k a w'.

Notation "x <- m ;; k" := (bind m (fun x => k))
  (at level 100, m at next level, right associativity).

(** [func APIBaseUrl() string] *)
Definition APIBaseUrl : IO string := fun w => (apiUrl (config w), w).

(** [func APIKey() string] *)
Definition APIKey : IO string := fun w => (apiKey (config w), w).

(** [func SetAPIBaseUrl(url string)] *)
Definition SetAPIBaseUrl (url : string) : IO unit :=
  fun w =>
    (tt, {| config := {| apiUrl := url; apiKey := apiKey (config w) |};
            server := server w; sent := sent w |}).

(** [func SetAPIKey(url string)] *)
Definition SetAPIKey (url : string) : IO unit :=
  fun w =>
    (tt, {| config := {| apiUrl := apiUrl (config w); apiKey := url |};
            server := server w; sent := sent w |}).

(** [http.DefaultClient.Do(req)]: the request goes out and the server
    answers. *)
Definition Do (req : Request) : IO DoResult :=
  fun w =>
    let '(resp, s) := http_Do req (server w) in
    (resp, {| config := config w; server := s; sent := sent w ++ [req] |}).

(** [func postBaseItem[T any](endpoint, item, query, start) (res T, err error)],
    with the zero value of [T] and its decoder. *)
Definition postBaseItem {T : Type} (zero : T)
    (json_Unmarshal : string -> T * option error)
    (endpoint : string) (item : BaseItem.t) (query start : string)
  : IO (T * option error) :=
  match json_Marshal {| BaseItem_ := item; Query := query; Start := start |} with
  | None => ret (zero, Some ErrMarshal)
  | Some jsonData =>
      url <- APIBaseUrl ;;
      key <- APIKey ;;
      let req := newRequest url key endpoint jsonData in
      resp <- Do req ;;
      match resp with
      | DoError => ret (zero, Some ErrTransport)
      | DoResponse StatusCode body =>
          match httpStatusMap !! StatusCode with
          | Some details => ret (zero, Some (ErrStatus StatusCode))
          | None => ret (json_Unmarshal body)
          end
      end
  end.

(** [func (item BaseItem) Search(query, start) (res SearchResponse, err error)] *)
Definition Search (item : BaseItem.t) (query start : string)
  : IO (SearchResponse.t * option error) :=
  r <- postBaseItem SearchResponse.zero json_Unmarshal_SearchResponse
         "/search" item query start ;;
  let '(res, err) := r in
  ret (SearchResponse.mk (SearchResponse.Data res) (SearchResponse.Error res)
         (SearchResponse.NextHash res) item query, err).

(** [func (searchRes SearchResponse) Next() (SearchResponse, error)] *)
Definition SearchResponse_Next (searchRes : SearchResponse.t)
  : IO (SearchResponse.t * option error) :=
  if String.eqb (SearchResponse.NextHash searchRes) "" then
    ret (SearchResponse.zero, Some ErrNoMoreResults)
  else
    Search (SearchResponse.baseitem searchRes) (SearchResponse.query searchRes)
           (SearchResponse.NextHash searchRes).

(** [func (item BaseItem) Filter(query, start) (res FilterResponse, err error)] *)
Definition Filter (item : BaseItem.t) (query start : string)
  : IO (FilterResponse.t * option error) :=
  r <- postBaseItem FilterResponse.zero json_Unmarshal_FilterResponse
         "/filter" item query start ;;
  let '(res, err) := r in
  let sr := FilterResponse.SearchResponse_ res in
  ret (FilterResponse.mk
         (SearchResponse.mk (SearchResponse.Data sr) (SearchResponse.Error sr)
            (SearchResponse.NextHash sr) item query)
         (FilterResponse.Total res), err).

(** [func (filterRes FilterResponse) Next() (FilterResponse, error)] *)
Definition FilterResponse_Next (filterRes : FilterResponse.t)
  : IO (FilterResponse.t * option error) :=
  let sr := FilterResponse.SearchResponse_ filterRes in
  if String.eqb (SearchResponse.NextHash sr) "" then
    ret (FilterResponse.zero, Some ErrNoMoreResults)
  else
    Filter (SearchResponse.baseitem sr) (SearchResponse.query sr)
           (SearchResponse.NextHash sr).

End Calls.

(** ** The enumerated fields and the validation rules, one by one

    [BaseItem.validate] is one sequence of tests.  To speak of "the field
    that fails" and of "the first failing rule", the tests are named here
    one by one, in the order in which the specification lists them. *)

Inductive EnumField : Type :=
| F_exchCode | F_micCode | F_currency | F_marketSecDes
| F_securityType | F_securityType2 | F_optionType | F_stateCode.

#[export] Instance EnumField_eq_dec : EqDecision EnumField.
Proof. solve_decision. Defined.

(** The name of a field on the wire and in the error messages. *)
Definition field_name (f : EnumField) : string :=
  match f with
  | F_exchCode => "exchCode"
  | F_micCode => "micCode"
  | F_currency => "currency"
  | F_marketSecDes => "marketSecDes"
  | F_securityType => "securityType"
  | F_securityType2 => "securityType2"
  | F_optionType => "optionType"
  | F_stateCode => "stateCode"
  end.

Definition field_value (f : EnumField) (item : BaseItem.t) : string :=
  match f with
  | F_exchCode => BaseItem.ExchCode item
  | F_micCode => BaseItem.MicCode item
  | F_currency => BaseItem.Currency item
  | F_marketSecDes => BaseItem.MarketSecDes item
  | F_securityType => BaseItem.SecurityType item
  | F_securityType2 => BaseItem.SecurityType2 item
  | F_optionType => BaseItem.OptionType item
  | F_stateCode => BaseItem.StateCode item
  end.

(** The values of the option type, from the comment of the field
    [OptionType] in [BaseItem]: ["Call" | "Put"].  The package has no
    generated set for them. *)
Definition optionTypeValues : gset string := {[ "Call"; "Put" ]}.

Definition reference_set (sets : ReferenceSets) (f : EnumField) : gset string :=
  match f with
  | F_exchCode => exchCodeSet sets
  | F_micCode => micCodeSet sets
  | F_currency => currencySet sets
  | F_marketSecDes => marketSecDesSet sets
  | F_securityType => securityTypeSet sets
  | F_securityType2 => securityType2Set sets
  | F_optionType => optionTypeValues
  | F_stateCode => stateCodeSet sets
  end.

(** A field is populated with a value outside its reference set. *)
Definition populated_outside (sets : ReferenceSets) (item : BaseItem.t)
    (f : EnumField) : Prop :=
  field_value f item <> "" /\ field_value f item ∉ reference_set sets f.

(** The same as a test. *)
Definition out_of_set (sets : ReferenceSets) (item : BaseItem.t) (f : EnumField) : bool :=
  negb (String.eqb (field_value f item) "")
  && negb (Has (reference_set sets f) (field_value f item)).

(** The fields in the order of the [switch] of [BaseItem.validate]. *)
Definition checked_fields : list EnumField :=
  [F_exchCode; F_micCode; F_currency; F_marketSecDes;
   F_securityType; F_securityType2; F_stateCode].

(** The first field, in that order, that is populated outside its set. *)
Definition first_out_of_set (sets : ReferenceSets) (item : BaseItem.t)
  : option EnumField :=
  List.find (out_of_set sets item) checked_fields.

(** A validation rule: the error it raises on an item, if any. *)
Abbreviation Rule A := (A -> option error) (only parsing).

(** The error of the first rule of a list that fails. *)
Fixpoint first_violation {A : Type} (rules : list (Rule A)) (x : A) : option error :=
  match rules with
  | [] => None
  | r :: rules =>
      match r x with
      | Some err => Some err
      | None => first_violation rules x
      end
  end.

Definition enum_rule (sets : ReferenceSets) (f : EnumField) : Rule BaseItem.t :=
  fun item =>
    if out_of_set sets item f then Some (ErrBadEnum (field_name f)) else None.

Definition exclusive_rule : Rule BaseItem.t :=
  fun item =>
    if negb (String.eqb (BaseItem.ExchCode item) "")
       && negb (String.eqb (BaseItem.MicCode item) "")
    then Some ErrExchMicTogether else None.

Definition interval_rule {A : Type} `{validator A}
    (field : BaseItem.t -> option A) : Rule BaseItem.t :=
  fun item =>
    match field item with
    | Some iv => validate iv
    | None => None
    end.

Definition expiration_rule : Rule BaseItem.t :=
  fun item =>
    if negb (String.eqb (BaseItem.SecurityType2 item) "Option")
       && is_Some_b (BaseItem.Expiration item)
    then Some ErrExpirationOnlyOption else None.

Definition maturity_rule : Rule BaseItem.t :=
  fun item =>
    if negb (String.eqb (BaseItem.SecurityType2 item) "Pool")
       && is_Some_b (BaseItem.Maturity item)
    then Some ErrMaturityOnlyPool else None.

(** The rules of a Base Item in the order of the specification:
    membership of each enumerated field, exclusivity of exchange code and
    MIC code, the five intervals, the two conditional fields. *)
Definition enum_rules (sets : ReferenceSets) : list (Rule BaseItem.t) :=
  List.map (enum_rule sets) checked_fields.

Definition interval_rules : list (Rule BaseItem.t) :=
  [interval_rule BaseItem.Strike; interval_rule BaseItem.ContractSize;
   interval_rule BaseItem.Coupon; interval_rule BaseItem.Expiration;
   interval_rule BaseItem.Maturity].

Definition conditional_rules : list (Rule BaseItem.t) :=
  [expiration_rule; maturity_rule].

Definition base_rules (sets : ReferenceSets) : list (Rule BaseItem.t) :=
  enum_rules sets ++ exclusive_rule :: interval_rules ++ conditional_rules.

Definition idType_rule (sets : ReferenceSets) : Rule MappingItem.t :=
  fun item =>
    if negb (Has (idTypeSet sets) (MappingItem.Type_ item))
    then Some (ErrBadIdType (MappingItem.Type_ item)) else None.

Definition securityType2_required_rule : Rule MappingItem.t :=
  fun item =>
    if (String.eqb (MappingItem.Type_ item) "BASE_TICKER"
        || String.eqb (MappingItem.Type_ item) "ID_EXCH_SYMBOL")
       && String.eqb (BaseItem.SecurityType2 (MappingItem.BaseItem_ item)) ""
    then Some ErrSecurityType2Required else None.

(** The rules of a Mapping Item: those of its Base Item, then membership of
    the identifier type, then the required security type 2. *)
Definition mapping_rules (sets : ReferenceSets) : list (Rule MappingItem.t) :=
  List.map (fun (r : Rule BaseItem.t) item => r (MappingItem.BaseItem_ item))
           (base_rules sets)
  ++ [idType_rule sets; securityType2_required_rule].

(** ** Sample data

    An excerpt of the generated tables, with the values behind the
    constants that the package's tests name ([constants.EXCHCODE_AU],
    [constants.IDTYPE_BASE_TICKER], ...) and those of the record that the
    test server returns; the malformed value of the tests, ["zigzagzig"],
    is in none of them.  And a remote server that answers every request
    with the same one-record page. *)

Module Sample.

Definition sets : ReferenceSets := {|
  exchCodeSet := {[ "US"; "AU" ]};
  micCodeSet := {[ "ADRK"; "BMTF" ]};
  currencySet := {[ "AUD"; "USD" ]};
  marketSecDesSet := {[ "Comdty"; "Equity" ]};
  securityTypeSet := {[ "OPTION"; "Common Stock" ]};
  securityType2Set := {[ "Option"; "Pool"; "Common Stock" ]};
  stateCodeSet := {[ "AC" ]};
  idTypeSet := {[ "TICKER"; "BASE_TICKER"; "ID_EXCH_SYMBOL" ]}
|}.

Definition two : float64.t := float64.of_pos 2.
Definition ten : float64.t := float64.of_pos 10.

(** The items of the tests of successful builds, before their date
    interval is set. *)
Definition valid_1 : BaseItem.t :=
  BaseItem.mk "AU" "" "AUD" "Comdty" "OPTION" "Option" false ""
    (Some (two, ten)) (Some (two, ten)) (Some (two, ten)) None None "".

Definition valid_2 : BaseItem.t :=
  BaseItem.mk "" "BMTF" "" "" "" "Pool" false "" None None None None None "AC".

Definition year_2021 : interval string := ("2021-01-01", "2022-01-01").

(** A stand-in for the encoder: it writes the query and the cursor. *)
Definition json_Marshal (r : searchOrFilterRequest) : option string :=
  Some ("{query:" +:+ Query r +:+ ",start:" +:+ Start r +:+ "}").

Definition record : FIGIObject.t :=
  FIGIObject.mk "BBG000BLNNH6" "Common Stock" "Equity" "IBM"
    "INTL BUSINESS MACHINES CORP" "" "US" "BBG001S5S399" "BBG000BLNNH6"
    "Common Stock" "IBM" "".

(** The server counts the requests it has answered. *)
Definition http_Do (req : Request) (served : nat) : DoResult * nat :=
  (DoResponse 200 "page", S served).

Definition json_Unmarshal_SearchResponse (body : string)
  : SearchResponse.t * option error :=
  (SearchResponse.mk [record] "" "" BaseItem.zero "", None).

Definition json_Unmarshal_FilterResponse (body : string)
  : FilterResponse.t * option error :=
  (FilterResponse.mk (SearchResponse.mk [record] "" "" BaseItem.zero "") 1, None).

Definition world : World nat :=
  {| config := {| apiUrl := "https://api.openfigi.com/v3"; apiKey := "" |};
     server := 0%nat; sent := [] |}.

(** A page with a cursor, as [Search] leaves it. *)
Definition page : SearchResponse.t :=
  SearchResponse.mk [record] "" "QW9JSVA0"
    (BaseItem.with_ExchCode "AU" BaseItem.zero) "ibm".

(** The last page: no cursor. *)
Definition last_page : SearchResponse.t :=
  SearchResponse.mk [] "" "" (BaseItem.with_ExchCode "AU" BaseItem.zero) "ibm".

End Sample.

(** ** The other constructors *)

(** [func (b_item *BaseItem) AsMappingItem(idType string, value any)
    (item MappingItem, err error)] *)
Definition BaseItem_AsMappingItem (sets : ReferenceSets) (b_item : BaseItem.t)
    (idType : string) (value : any) : MappingItem.t * option error :=
  let item := MappingItem.mk b_item idType value in
  let err := MappingItem.validate sets item in
  (item, err).

(** [func (m_item *MappingItem) AsBaseItem() (item BaseItem, err error)] *)
Definition MappingItem_AsBaseItem (sets : ReferenceSets) (m_item : MappingItem.t)
  : BaseItem.t * option error :=
  let item := MappingItem.BaseItem_ m_item in
  let err := BaseItem.validate sets item in
  (item, err).

(** ** The bulk request *)

(** [type MappingRequest []MappingItem] *)
Definition MappingRequest : Type := list MappingItem.t.

(** [func (req *MappingRequest) FromMappingItemBuilders(builders ...MappingItemBuilder) error]:
    the error, and the request that the receiver points to afterwards.  The
    loop works on copies of the builders. *)
Fixpoint FromMappingItemBuilders (sets : ReferenceSets)
    (builders : list MappingItemBuilder.t) (req : MappingRequest)
  : option error * MappingRequest :=
  match builders with
  | [] => (None, req)
  | builder :: builders =>
      let '((item, err), _) := MappingItemBuilder.Build sets builder in
      match err with
      | Some err => (Some err, req)
      | None => FromMappingItemBuilders sets builders (req ++ [item])
      end
  end.

Module SingleMappingResponse.

Record t : Type := mk {
  Data : list FIGIObject.t;
  Error : string;
  Warning : list string
}.

End SingleMappingResponse.

Section MappingCalls.

Context {Server : Type}.

(** [json.Marshal] of a mapping request; [None] is its error. *)
Variable json_Marshal_MappingRequest : MappingRequest -> option string.
(** [http.DefaultClient.Do] against the remote server. *)
Variable http_Do : Request -> Server -> DoResult * Server.
(** [json.Unmarshal(body, &res)] into a nil slice of responses. *)
Variable json_Unmarshal_MappingResponses :
  string -> list SingleMappingResponse.t * option error.

Notation "x <- m ;; k" := (bind m (fun x => k))
  (at level 100, m at next level, right associativity).

(** [func (m_req MappingRequest) Fetch() (res []SingleMappingResponse, err error)] *)
Definition Fetch (m_req : MappingRequest)
  : @IO Server (list SingleMappingResponse.t * option error) :=
  match json_Marshal_MappingRequest m_req with
  | None => ret ([], Some ErrMarshal)
  | Some jsonData =>
      url <- APIBaseUrl ;;
      key <- APIKey ;;
      let req := newRequest url key "/mapping" jsonData in
      resp <- Do http_Do req ;;
      match resp with
      | DoError => ret ([], Some ErrTransport)
      | DoResponse StatusCode body =>
          match httpStatusMap !! StatusCode with
          | Some details => ret ([], Some (ErrStatus StatusCode))
          | None => ret (json_Unmarshal_MappingResponses body)
          end
      end
  end.

End MappingCalls.

(** ** Configuration and paging *)

Section Paging.

Context {Server : Type}.
Variable json_Marshal : searchOrFilterRequest -> option string.
Variable http_Do : Request -> Server -> DoResult * Server.
Variable json_Unmarshal_SearchResponse : string -> SearchResponse.t * option error.

Notation "x <- m ;; k" := (bind m (fun x => k))
  (at level 100, m at next level, right associativity).

(** [func init()]: the base URL at start-up. *)
Definition init : @IO Server unit := SetAPIBaseUrl "https://api.openfigi.com/v3".

(** [func valuesUrl(property string) string] *)
Definition valuesUrl (property : string) : @IO Server string :=
  url <- APIBaseUrl ;;
  ret (url +:+ "/mapping/values/" +:+ property).

(** A caller that follows the cursor for at most [n] pages:
    [for res.NextHash != "" { res, _ = res.Next() }]. *)
Fixpoint follow (n : nat) (res : SearchResponse.t) : @IO Server SearchResponse.t :=
  match n with
  | O => ret res
  | S n =>
      if String.eqb (SearchResponse.NextHash res) "" then ret res
      else
        r <- SearchResponse_Next json_Marshal http_Do
               json_Unmarshal_SearchResponse res ;;
        follow n (fst r)
  end.

End Paging.

(** ** Validity, field by field *)

(** A numeric interval that [validate] lets through: not open on both
    sides, and not with its low bound greater than its high bound. *)
Definition valid_float64_interval (iv : interval float64.t) : Prop :=
  ~ (float64.IsInf (fst iv) (-1) = true /\ float64.IsInf (snd iv) 1 = true)
  /\ float64.gt (fst iv) (snd iv) = false.

(** A date interval that [validate] lets through: not empty on both
    sides, every populated bound a date, and the low date not after the
    high date. *)
Definition valid_date_interval (iv : interval string) : Prop :=
  ~ (fst iv = "" /\ snd iv = "")
  /\ (fst iv <> "" -> time.parse_DateOnly (fst iv) <> None)
  /\ (snd iv <> "" -> time.parse_DateOnly (snd iv) <> None)
  /\ (forall s e, time.parse_DateOnly (fst iv) = Some s ->
                  time.parse_DateOnly (snd iv) = Some e ->
                  time.After s e = false).

(** The invariants of a Base Item. *)
Record valid_BaseItem (sets : ReferenceSets) (item : BaseItem.t) : Prop := {
  valid_enums :
    forall f, In f checked_fields ->
      field_value f item = "" \/ field_value f item ∈ reference_set sets f;
  valid_exclusive :
    BaseItem.ExchCode item = "" \/ BaseItem.MicCode item = "";
  valid_Strike :
    forall iv, BaseItem.Strike item = Some iv -> valid_float64_interval iv;
  valid_ContractSize :
    forall iv, BaseItem.ContractSize item = Some iv -> valid_float64_interval iv;
  valid_Coupon :
    forall iv, BaseItem.Coupon item = Some iv -> valid_float64_interval iv;
  valid_Expiration :
    forall iv, BaseItem.Expiration item = Some iv ->
      valid_date_interval iv /\ BaseItem.SecurityType2 item = "Option";
  valid_Maturity :
    forall iv, BaseItem.Maturity item = Some iv ->
      valid_date_interval iv /\ BaseItem.SecurityType2 item = "Pool"
}.

(** The invariants of a Mapping Item. *)
Record valid_MappingItem (sets : ReferenceSets) (item : MappingItem.t) : Prop := {
  valid_base : valid_BaseItem sets (MappingItem.BaseItem_ item);
  valid_idType : MappingItem.Type_ item ∈ idTypeSet sets;
  valid_required :
    MappingItem.Type_ item = "BASE_TICKER"
    \/ MappingItem.Type_ item = "ID_EXCH_SYMBOL" ->
    BaseItem.SecurityType2 (MappingItem.BaseItem_ item) <> ""
}.

(** One table set within another, table by table. *)
Definition sets_included (sets sets' : ReferenceSets) : Prop :=
  exchCodeSet sets ⊆ exchCodeSet sets'
  /\ micCodeSet sets ⊆ micCodeSet sets'
  /\ currencySet sets ⊆ currencySet sets'
  /\ marketSecDesSet sets ⊆ marketSecDesSet sets'
  /\ securityTypeSet sets ⊆ securityTypeSet sets'
  /\ securityType2Set sets ⊆ securityType2Set sets'
  /\ stateCodeSet sets ⊆ stateCodeSet sets'
  /\ idTypeSet sets ⊆ idTypeSet sets'.

(** The setter of an enumerated field. *)
Definition set_field (f : EnumField) (v : string)
  : BaseItemBuilder.t -> BaseItemBuilder.t :=
  match f with
  | F_exchCode => BaseItemBuilder.SetExchCode v
  | F_micCode => BaseItemBuilder.SetMicCode v
  | F_currency => BaseItemBuilder.SetCurrency v
  | F_marketSecDes => BaseItemBuilder.SetMarketSecDes v
  | F_securityType => BaseItemBuilder.SetSecurityType v
  | F_securityType2 => BaseItemBuilder.SetSecurityType2 v
  | F_optionType => BaseItemBuilder.SetOptionType v
  | F_stateCode => BaseItemBuilder.SetStateCode v
  end.

(** A numeric interval with a bound that is not a real number. *)
Definition unbounded_side (iv : option (interval float64.t)) : bool :=
  match iv with
  | Some (lo, hi) => negb (float64.is_real lo) || negb (float64.is_real hi)
  | None => false
  end.

(** An item that carries an infinity or a NaN in a numeric interval. *)
Definition carries_non_real (item : BaseItem.t) : bool :=
  unbounded_side (BaseItem.Strike item)
  || unbounded_side (BaseItem.ContractSize item)
  || unbounded_side (BaseItem.Coupon item).

(** Further sample data: an encoder that, like [encoding/json], has no
    encoding for an infinity or a NaN, and the stand-ins for the bulk
    call. *)
Module Sample2.

Definition json_Marshal_strict (r : searchOrFilterRequest) : option string :=
  if carries_non_real (BaseItem_ r) then None else Sample.json_Marshal r.

Definition json_Marshal_MappingRequest (m_req : MappingRequest) : option string :=
  Some "[...]".

Definition json_Unmarshal_MappingResponses (body : string)
  : list SingleMappingResponse.t * option error :=
  ([SingleMappingResponse.mk [Sample.record] "" []], None).

(** A server that refuses every request as too large. *)
Definition http_Do_413 (req : Request) (served : nat) : DoResult * nat :=
  (DoResponse 413 "", S served).

(** A server that answers with a status that the package does not list. *)
Definition http_Do_403 (req : Request) (served : nat) : DoResult * nat :=
  (DoResponse 403 "forbidden", S served).

Definition ticker_IBM : MappingItemBuilder.t :=
  MappingItemBuilder.promoted (BaseItemBuilder.SetExchCode "US")
    (MappingItemBuilder.GetBuilder "TICKER" (any_string "IBM")).

Definition base_ticker_IBM : MappingItemBuilder.t :=
  MappingItemBuilder.GetBuilder "BASE_TICKER" (any_string "IBM").

End Sample2.

(** * Properties *)

(** ** Strings and membership *)

Lemma eqb_empty_false (s : string) : s <> "" -> String.eqb s "" = false.
Proof. intros Hs. apply String.eqb_neq. exact Hs. Qed.

Lemma eqb_empty_true (s : string) : String.eqb s "" = true -> s = "".
Proof. apply String.eqb_eq. Qed.

Lemma Has_true (set : gset string) (value : string) :
  Has set value = true <-> value ∈ set.
Proof. unfold Has. apply bool_decide_eq_true. Qed.

Lemma Has_false (set : gset string) (value : string) :
  Has set value = false <-> value ∉ set.
Proof. unfold Has. apply bool_decide_eq_false. Qed.

(** ** Dates *)

Lemma parse_DateOnly_empty : time.parse_DateOnly "" = None.
Proof. reflexivity. Qed.

Lemma parse_DateOnly_populated (value : string) (t : time.Time) :
  time.parse_DateOnly value = Some t -> value <> "".
Proof. intros Hp ->. discriminate Hp. Qed.

Lemma Parse_DateOnly_ok (value : string) (t : time.Time) :
  time.parse_DateOnly value = Some t -> time.Parse_DateOnly value = (t, None).
Proof. unfold time.Parse_DateOnly. intros ->. reflexivity. Qed.

Lemma Parse_DateOnly_error (value : string) :
  time.parse_DateOnly value = None ->
  time.Parse_DateOnly value = (time.zero, Some (time.parseError value)).
Proof. unfold time.Parse_DateOnly. intros ->. reflexivity. Qed.

(** A parsed date is a date of the calendar. *)
Lemma parse_DateOnly_calendar (value : string) (t : time.Time) :
  time.parse_DateOnly value = Some t ->
  1 <= time.month t <= 12 /\ 1 <= time.day t <= time.daysIn (time.month t) (time.year t).
Proof.
  unfold time.parse_DateOnly. intros Hp.
  destruct (time.getyear value) as [[y v1]|]; [|discriminate].
  destruct (time.skip_dash v1) as [v2|]; [|discriminate].
  destruct (time.getnum v2 true) as [[m v3]|]; [|discriminate].
  destruct ((m <=? 0) || (12 <? m)) eqn:Hm; [discriminate|].
  destruct (time.skip_dash v3) as [v4|]; [|discriminate].
  destruct (time.getnum v4 true) as [[d v5]|]; [|discriminate].
  destruct (negb (String.eqb v5 "")); [discriminate|].
  destruct ((d <? 1) || (time.daysIn m y <? d)) eqn:Hd; [discriminate|].
  injection Hp as <-. simpl.
  apply orb_false_iff in Hm as [Hm1 Hm2]. apply orb_false_iff in Hd as [Hd1 Hd2].
  lia.
Qed.

(** [After] is a strict order on dates: irreflexive and asymmetric. *)
Lemma After_irrefl (t : time.Time) : time.After t t = false.
Proof.
  unfold time.After. rewrite !Z.ltb_irrefl, !Z.eqb_refl. reflexivity.
Qed.

Lemma After_asym (t u : time.Time) : time.After t u = true -> time.After u t = false.
Proof.
  unfold time.After. intros H.
  destruct (Z.ltb_spec (time.year u) (time.year t));
    destruct (Z.ltb_spec (time.year t) (time.year u));
    destruct (Z.eqb_spec (time.year u) (time.year t));
    destruct (Z.eqb_spec (time.year t) (time.year u));
    destruct (Z.ltb_spec (time.month u) (time.month t));
    destruct (Z.ltb_spec (time.month t) (time.month u));
    destruct (Z.eqb_spec (time.month u) (time.month t));
    destruct (Z.eqb_spec (time.month t) (time.month u));
    destruct (Z.ltb_spec (time.day u) (time.day t));
    destruct (Z.ltb_spec (time.day t) (time.day u));
    simpl in *; try reflexivity; try discriminate; lia.
Qed.

(** ** Intervals of numbers *)

Lemma float64_le_not_gt (a b : float64.t) :
  float64.le a b = true -> float64.gt a b = false.
Proof.
  unfold float64.le, float64.gt, SFleb.
  destruct (SFcompare a b) as [[]|]; intros H; try reflexivity; discriminate H.
Qed.

Lemma float64_real_not_Inf (a : float64.t) (sign : Z) :
  float64.is_real a = true -> float64.IsInf a sign = false.
Proof. destruct a; simpl; intros H; try reflexivity; discriminate H. Qed.

Lemma float64_neg_Inf_not_gt (a b : float64.t) :
  float64.IsInf a (-1) = true -> float64.is_real b = true -> float64.gt a b = false.
Proof.
  destruct a as [| [] | |]; simpl; try discriminate; intros _.
  destruct b; simpl; intros H; try reflexivity; discriminate H.
Qed.

Lemma float64_not_gt_pos_Inf (a b : float64.t) :
  float64.is_real a = true -> float64.IsInf b 1 = true -> float64.gt a b = false.
Proof.
  intros Ha. destruct b as [| [] | |]; simpl; try discriminate; intros _.
  destruct a; simpl in *; try reflexivity; discriminate Ha.
Qed.

(** C3. A numeric interval: when both bounds are the open-ended sentinels
    (negative infinity below, positive infinity above) [validate] fails
    with an InvalidInterval error; when both bounds are real numbers it
    fails if the low bound is greater than the high bound and succeeds if
    it is less or equal; when exactly one bound is a real number and the
    other is the sentinel of its side it succeeds. *)
Theorem C3_numeric_interval_validate (a b : float64.t) :
  (float64.IsInf a (-1) = true -> float64.IsInf b 1 = true ->
   validate (a, b) = Some ErrNullInterval
   /\ kind ErrNullInterval = InvalidInterval) /\
  (float64.is_real a = true -> float64.is_real b = true ->
   float64.gt a b = true ->
   validate (a, b) = Some ErrBadInterval) /\
  (float64.is_real a = true -> float64.is_real b = true ->
   float64.le a b = true ->
   validate (a, b) = None) /\
  (float64.IsInf a (-1) = true -> float64.is_real b = true ->
   validate (a, b) = None) /\
  (float64.is_real a = true -> float64.IsInf b 1 = true ->
   validate (a, b) = None).
Proof.
  unfold validate, interval_float64_validate; simpl.
  split; [|split; [|split; [|split]]].
  - intros -> ->. split; reflexivity.
  - intros Ha _ Hgt. rewrite (float64_real_not_Inf a _ Ha), Hgt. reflexivity.
  - intros Ha _ Hle.
    rewrite (float64_real_not_Inf a _ Ha), (float64_le_not_gt a b Hle). reflexivity.
  - intros Ha Hb.
    rewrite (float64_real_not_Inf b _ Hb), andb_false_r.
    rewrite (float64_neg_Inf_not_gt a b Ha Hb). reflexivity.
  - intros Ha Hb.
    rewrite (float64_real_not_Inf a _ Ha), (float64_not_gt_pos_Inf a b Ha Hb).
    reflexivity.
Qed.

Lemma C3_numeric_interval_witness :
  validate (float64.Inf (-1), float64.Inf 1) = Some ErrNullInterval /\
  validate (Sample.ten, Sample.two) = Some ErrBadInterval /\
  validate (Sample.two, Sample.ten) = None /\
  validate (Sample.two, Sample.two) = None /\
  validate (float64.Inf (-1), Sample.two) = None /\
  validate (Sample.two, float64.Inf 1) = None.
Proof.
  split; [|split; [|split; [|split; [|split]]]].
  - destruct (C3_numeric_interval_validate (float64.Inf (-1)) (float64.Inf 1))
      as (H & _).
    apply H; reflexivity.
  - destruct (C3_numeric_interval_validate Sample.ten Sample.two)
      as (_ & H & _).
    apply H; reflexivity.
  - destruct (C3_numeric_interval_validate Sample.two Sample.ten)
      as (_ & _ & H & _).
    apply H; reflexivity.
  - destruct (C3_numeric_interval_validate Sample.two Sample.two)
      as (_ & _ & H & _).
    apply H; reflexivity.
  - destruct (C3_numeric_interval_validate (float64.Inf (-1)) Sample.two)
      as (_ & _ & _ & H & _).
    apply H; reflexivity.
  - destruct (C3_numeric_interval_validate Sample.two (float64.Inf 1))
      as (_ & _ & _ & _ & H).
    apply H; reflexivity.
Defined.

(** The setters hand [validate] the sentinels for absent bounds. *)
Lemma intepretRange_float64_nil (lo hi : float64.t) :
  intepretRange_float64 (any_nil, any_nil) = Some (float64.Inf (-1), float64.Inf 1)
  /\ intepretRange_float64 (any_nil, any_float64 hi) = Some (float64.Inf (-1), hi)
  /\ intepretRange_float64 (any_float64 lo, any_nil) = Some (lo, float64.Inf 1)
  /\ intepretRange_float64 (any_float64 lo, any_float64 hi) = Some (lo, hi).
Proof. repeat split. Qed.

(** A NaN is neither an infinity nor greater than anything: an interval
    with a NaN bound passes. *)
Lemma NaN_interval_passes (a : float64.t) :
  validate (float64.NaN, a) = None /\ validate (a, float64.NaN) = None.
Proof.
  unfold validate, interval_float64_validate, float64.gt; simpl.
  split; [reflexivity|]. rewrite andb_false_r.
  destruct a; reflexivity.
Qed.

Lemma Sample_floats_binary64 :
  float64.is_binary64 Sample.two = true /\ float64.is_binary64 Sample.ten = true.
Proof. split; reflexivity. Qed.

(** ** Intervals of dates *)

Lemma interval_string_validate_unfold (start end_ : string) :
  validate (start, end_) =
  if String.eqb start "" && String.eqb end_ "" then Some ErrNullInterval
  else if negb (String.eqb start "")
          && negb (is_Some_b (time.parse_DateOnly start))
  then Some ErrBadDateFormat
  else if negb (String.eqb end_ "")
          && negb (is_Some_b (time.parse_DateOnly end_))
  then Some ErrBadDateFormat
  else match time.parse_DateOnly start, time.parse_DateOnly end_ with
       | Some s, Some e => if time.After s e then Some ErrBadInterval else None
       | _, _ => None
       end.
Proof.
  unfold validate, interval_string_validate, time.Parse_DateOnly; simpl.
  destruct (String.eqb_spec start "") as [->|Hs];
    destruct (String.eqb_spec end_ "") as [->|He]; simpl; try reflexivity.
  - destruct (time.parse_DateOnly end_); reflexivity.
  - destruct (time.parse_DateOnly start); reflexivity.
  - destruct (time.parse_DateOnly start); simpl; [|reflexivity].
    destruct (time.parse_DateOnly end_); reflexivity.
Qed.

(** C4. A date interval of two strings: [validate] fails with
    InvalidInterval if both bounds are empty; otherwise it fails with
    InvalidDateFormat if a populated bound does not parse as a YYYY-MM-DD
    date, whatever the order of the bounds; if both bounds parse and the
    low date is after the high date it fails with InvalidInterval; an
    interval with one valid date and the other bound empty passes. *)
Theorem C4_date_interval_validate (start end_ : string) :
  (start = "" -> end_ = "" ->
   validate (start, end_) = Some ErrNullInterval
   /\ kind ErrNullInterval = InvalidInterval) /\
  ((start <> "" /\ time.parse_DateOnly start = None)
   \/ (end_ <> "" /\ time.parse_DateOnly end_ = None) ->
   validate (start, end_) = Some ErrBadDateFormat
   /\ kind ErrBadDateFormat = InvalidDateFormat) /\
  (forall s e, time.parse_DateOnly start = Some s ->
               time.parse_DateOnly end_ = Some e ->
               time.After s e = true ->
   validate (start, end_) = Some ErrBadInterval
   /\ kind ErrBadInterval = InvalidInterval) /\
  (forall s e, time.parse_DateOnly start = Some s ->
               time.parse_DateOnly end_ = Some e ->
               time.After s e = false ->
   validate (start, end_) = None) /\
  (forall e, start = "" -> time.parse_DateOnly end_ = Some e ->
   validate (start, end_) = None) /\
  (forall s, time.parse_DateOnly start = Some s -> end_ = "" ->
   validate (start, end_) = None).
Proof.
  rewrite interval_string_validate_unfold.
  split; [|split; [|split; [|split; [|split]]]].
  - intros -> ->. split; reflexivity.
  - intros H. split; [|reflexivity].
    assert (Hne : String.eqb start "" && String.eqb end_ "" = false).
    { destruct H as [[Hs _]|[He _]].
      - rewrite (eqb_empty_false _ Hs). reflexivity.
      - rewrite (eqb_empty_false _ He). apply andb_false_r. }
    rewrite Hne.
    destruct H as [[Hs Hp]|[He Hp]].
    + rewrite (eqb_empty_false _ Hs), Hp. reflexivity.
    + rewrite (eqb_empty_false _ He), Hp. simpl.
      destruct (negb (String.eqb start "")
                && negb (is_Some_b (time.parse_DateOnly start))); reflexivity.
  - intros s e Hs He Haft. split; [|reflexivity].
    rewrite (eqb_empty_false _ (parse_DateOnly_populated _ _ Hs)).
    rewrite (eqb_empty_false _ (parse_DateOnly_populated _ _ He)).
    rewrite Hs, He, Haft. reflexivity.
  - intros s e Hs He Haft.
    rewrite (eqb_empty_false _ (parse_DateOnly_populated _ _ Hs)).
    rewrite (eqb_empty_false _ (parse_DateOnly_populated _ _ He)).
    rewrite Hs, He, Haft. reflexivity.
  - intros e -> He.
    rewrite (eqb_empty_false _ (parse_DateOnly_populated _ _ He)).
    rewrite He. reflexivity.
  - intros s Hs ->.
    rewrite (eqb_empty_false _ (parse_DateOnly_populated _ _ Hs)).
    rewrite Hs. reflexivity.
Qed.

Lemma C4_date_interval_witness :
  validate ("", "") = Some ErrNullInterval /\
  validate ("2023-02-30", "2022-01-01") = Some ErrBadDateFormat /\
  validate ("2023-01-01", "01/01/2022") = Some ErrBadDateFormat /\
  validate ("2023-01-01", "2022-01-01") = Some ErrBadInterval /\
  validate ("2021-01-01", "2022-01-01") = None /\
  validate ("", "2022-01-01") = None /\
  validate ("2021-01-01", "") = None.
Proof.
  split; [|split; [|split; [|split; [|split; [|split]]]]].
  - destruct (C4_date_interval_validate "" "") as (H & _).
    apply H; reflexivity.
  - destruct (C4_date_interval_validate "2023-02-30" "2022-01-01")
      as (_ & H & _).
    apply H. left. split; [discriminate | reflexivity].
  - destruct (C4_date_interval_validate "2023-01-01" "01/01/2022")
      as (_ & H & _).
    apply H. right. split; [discriminate | reflexivity].
  - destruct (C4_date_interval_validate "2023-01-01" "2022-01-01")
      as (_ & _ & H & _).
    apply (H (time.Date 2023 1 1) (time.Date 2022 1 1)); reflexivity.
  - destruct (C4_date_interval_validate "2021-01-01" "2022-01-01")
      as (_ & _ & _ & H & _).
    apply (H (time.Date 2021 1 1) (time.Date 2022 1 1)); reflexivity.
  - destruct (C4_date_interval_validate "" "2022-01-01")
      as (_ & _ & _ & _ & H & _).
    apply (H (time.Date 2022 1 1)); reflexivity.
  - destruct (C4_date_interval_validate "2021-01-01" "")
      as (_ & _ & _ & _ & _ & H).
    apply (H (time.Date 2021 1 1)); reflexivity.
Defined.

(** ** Rules and their first violation *)

Section FirstViolation.

Context {A : Type}.
Implicit Types (rules : list (Rule A)) (x : A).

Lemma first_violation_app rules1 rules2 x :
  first_violation (rules1 ++ rules2) x =
  match first_violation rules1 x with
  | Some err => Some err
  | None => first_violation rules2 x
  end.
Proof.
  induction rules1 as [|r rules1 IH]; simpl; [reflexivity|].
  destruct (r x); [reflexivity | exact IH].
Qed.

(** No error exactly when every rule passes. *)
Lemma first_violation_None rules x :
  first_violation rules x = None <-> Forall (fun r => r x = None) rules.
Proof.
  induction rules as [|r rules IH]; simpl.
  - split; [constructor | reflexivity].
  - destruct (r x) eqn:Hr.
    + split; [discriminate|]. intros H. inversion H; congruence.
    + rewrite IH. split.
      * intros H. constructor; assumption.
      * intros H. inversion H; assumption.
Qed.

(** An error is the error of a rule before which every rule passes. *)
Lemma first_violation_Some rules x err :
  first_violation rules x = Some err <->
  exists before r after,
    rules = before ++ r :: after
    /\ Forall (fun r' => r' x = None) before
    /\ r x = Some err.
Proof.
  induction rules as [|r rules IH]; simpl.
  - split; [discriminate|].
    intros (before & r & after & Heq & _). destruct before; discriminate Heq.
  - destruct (r x) eqn:Hr.
    + split.
      * intros [= <-]. exists [], r, rules. repeat split; [constructor | exact Hr].
      * intros (before & r' & after & Heq & Hbefore & Hr').
        destruct before as [|r0 before]; simpl in Heq; injection Heq as <- _.
        -- congruence.
        -- inversion Hbefore; congruence.
    + rewrite IH. split.
      * intros (before & r' & after & -> & Hbefore & Hr').
        exists (r :: before), r', after.
        repeat split; [constructor; assumption | exact Hr'].
      * intros (before & r' & after & Heq & Hbefore & Hr').
        destruct before as [|r0 before]; simpl in Heq; injection Heq as <- ->.
        -- congruence.
        -- exists before, r', after. inversion Hbefore. repeat split; assumption.
Qed.

End FirstViolation.

(** The membership rules of a list of fields fail on the first field that
    is out of its set, with the error that names it. *)
Lemma first_violation_enum_rules sets item (fields : list EnumField) :
  first_violation (List.map (enum_rule sets) fields) item =
  option_map (fun f => ErrBadEnum (field_name f))
             (List.find (out_of_set sets item) fields).
Proof.
  induction fields as [|f fields IH]; simpl; [reflexivity|].
  unfold enum_rule at 1.
  destruct (out_of_set sets item f); [reflexivity | exact IH].
Qed.

(** What [find] returns is the first element that satisfies the test. *)
Lemma find_first {B : Type} (p : B -> bool) (l : list B) (x : B) :
  List.find p l = Some x ->
  exists before after,
    l = before ++ x :: after
    /\ (forall y, In y before -> p y = false)
    /\ p x = true.
Proof.
  induction l as [|y l IH]; simpl; [discriminate|].
  destruct (p y) eqn:Hy.
  - intros [= <-]. exists [], l. repeat split; [intros ? [] | exact Hy].
  - intros Hfind. destruct (IH Hfind) as (before & after & -> & Hbefore & Hx).
    exists (y :: before), after. repeat split; [|exact Hx].
    intros z [<-|Hz]; [exact Hy | exact (Hbefore z Hz)].
Qed.

Lemma find_exists {B : Type} (p : B -> bool) (l : list B) (x : B) :
  In x l -> p x = true -> exists y, List.find p l = Some y.
Proof.
  intros Hin Hp. destruct (List.find p l) as [y|] eqn:Hfind; [eauto|].
  rewrite (find_none p l Hfind x Hin) in Hp. discriminate Hp.
Qed.

(** [BaseItem.validate] runs the rules of a Base Item in their order and
    returns the error of the first that fails. *)
Lemma BaseItem_validate_first_violation sets (item : BaseItem.t) :
  BaseItem.validate sets item = first_violation (base_rules sets) item.
Proof.
  unfold BaseItem.validate, base_rules, enum_rules, interval_rules,
    conditional_rules, checked_fields.
  cbn [List.map app first_violation].
  unfold enum_rule, out_of_set, exclusive_rule, expiration_rule, maturity_rule,
    interval_rule.
  cbn [field_value reference_set field_name validate_each].
  repeat match goal with
         | |- (if ?c then _ else _) = _ => destruct c; [reflexivity|]
         end.
  destruct (BaseItem.Strike item) as [iv|];
    [destruct (validate iv); [reflexivity|]|];
  (destruct (BaseItem.ContractSize item) as [iv2|];
    [destruct (validate iv2); [reflexivity|]|]);
  (destruct (BaseItem.Coupon item) as [iv3|];
    [destruct (validate iv3); [reflexivity|]|]);
  (destruct (BaseItem.Expiration item) as [iv4|];
    [destruct (validate iv4); [reflexivity|]|]);
  (destruct (BaseItem.Maturity item) as [iv5|];
    [destruct (validate iv5); [reflexivity|]|]);
  cbn [is_Some_b];
  repeat match goal with
         | |- (if ?c then _ else _) = _ => destruct c; [reflexivity|]
         end;
  reflexivity.
Qed.

(** [MappingItem.validate] does the same with the rules of a Mapping Item. *)
Lemma MappingItem_validate_first_violation sets (item : MappingItem.t) :
  MappingItem.validate sets item = first_violation (mapping_rules sets) item.
Proof.
  unfold MappingItem.validate, mapping_rules.
  rewrite first_violation_app, BaseItem_validate_first_violation.
  assert (Hmap : forall rules,
    first_violation
      (List.map (fun (r : Rule BaseItem.t) it => r (MappingItem.BaseItem_ it)) rules)
      item
    = first_violation rules (MappingItem.BaseItem_ item)).
  { induction rules as [|r rules IH]; simpl; [reflexivity|].
    destruct (r (MappingItem.BaseItem_ item)); [reflexivity | exact IH]. }
  rewrite Hmap.
  destruct (first_violation (base_rules sets) (MappingItem.BaseItem_ item));
    [reflexivity|].
  cbn [first_violation]. unfold idType_rule, securityType2_required_rule.
  destruct (negb (Has (idTypeSet sets) (MappingItem.Type_ item))); [reflexivity|].
  destruct ((String.eqb (MappingItem.Type_ item) "BASE_TICKER"
             || String.eqb (MappingItem.Type_ item) "ID_EXCH_SYMBOL")
            && String.eqb (BaseItem.SecurityType2 (MappingItem.BaseItem_ item)) "");
    reflexivity.
Qed.

(** ** Enumerated fields *)

Lemma out_of_set_true sets item f :
  out_of_set sets item f = true <-> populated_outside sets item f.
Proof.
  unfold out_of_set, populated_outside.
  rewrite andb_true_iff, !negb_true_iff, Has_false.
  split; intros [H1 H2]; (split; [|exact H2]).
  - apply String.eqb_neq. exact H1.
  - apply String.eqb_neq. exact H1.
Qed.

Lemma out_of_set_false sets item f :
  out_of_set sets item f = false <->
  (field_value f item = "" \/ field_value f item ∈ reference_set sets f).
Proof.
  unfold out_of_set.
  rewrite andb_false_iff, !negb_false_iff, Has_true, String.eqb_eq. reflexivity.
Qed.

(** The outcome of [BaseItem.validate] after its [switch]: the error that
    names the first field out of its set, or what the later rules say. *)
Lemma BaseItem_validate_enum_stage sets (item : BaseItem.t) :
  BaseItem.validate sets item =
  match first_out_of_set sets item with
  | Some g => Some (ErrBadEnum (field_name g))
  | None =>
      first_violation (exclusive_rule :: interval_rules ++ conditional_rules) item
  end.
Proof.
  rewrite BaseItem_validate_first_violation. unfold base_rules, enum_rules.
  rewrite first_violation_app, first_violation_enum_rules.
  unfold first_out_of_set.
  destruct (List.find (out_of_set sets item) checked_fields); reflexivity.
Qed.

Lemma find_at_first {B : Type} (p : B -> bool) (before after : list B) (x : B) :
  (forall y, In y before -> p y = false) -> p x = true ->
  List.find p (before ++ x :: after) = Some x.
Proof.
  induction before as [|y before IH]; simpl; intros Hbefore Hx.
  - rewrite Hx. reflexivity.
  - rewrite (Hbefore y (or_introl eq_refl)). apply IH; [|exact Hx].
    intros z Hz. apply Hbefore. right. exact Hz.
Qed.

(** C1. Of the enumerated fields that [validate] tests (exchange code, MIC
    code, currency, market-sector description, security type, security
    type 2, state code, in this order): when one of them is populated with a
    value outside its reference set, [Build] fails with an InvalidEnumValue
    error that names the first field in this order that is so; it names the
    field itself when no field before it is out of its set.  A [Build] that
    succeeds has every populated one of these fields in its reference
    set. *)
Theorem C1_invalid_enum_first_named sets (b : BaseItemBuilder.t) :
  let item := BaseItemBuilder.item b in
  let err := (BaseItemBuilder.Build sets b).1.2 in
  (forall f, In f checked_fields -> populated_outside sets item f ->
     exists g before after,
       checked_fields = before ++ g :: after
       /\ (forall h, In h before -> ~ populated_outside sets item h)
       /\ populated_outside sets item g
       /\ err = Some (ErrBadEnum (field_name g))
       /\ kind (ErrBadEnum (field_name g)) = InvalidEnumValue (field_name g)) /\
  (forall f before after,
     checked_fields = before ++ f :: after ->
     (forall h, In h before -> ~ populated_outside sets item h) ->
     populated_outside sets item f ->
     err = Some (ErrBadEnum (field_name f))) /\
  (err = None ->
   forall f, In f checked_fields ->
     field_value f item = "" \/ field_value f item ∈ reference_set sets f).
Proof.
  intros item err. subst err. cbn [BaseItemBuilder.Build fst snd].
  fold item. rewrite BaseItem_validate_enum_stage. split; [|split].
  - intros f Hin Hout. apply out_of_set_true in Hout.
    destruct (find_exists _ _ _ Hin Hout) as [g Hg].
    unfold first_out_of_set. rewrite Hg.
    destruct (find_first _ _ _ Hg) as (before & after & Heq & Hbefore & Hgout).
    exists g, before, after. repeat split.
    + exact Heq.
    + intros h Hh Hhout. apply out_of_set_true in Hhout.
      rewrite (Hbefore h Hh) in Hhout. discriminate Hhout.
    + apply out_of_set_true in Hgout. apply Hgout.
    + apply out_of_set_true in Hgout. apply Hgout.
  - intros f before after Heq Hbefore Hout.
    unfold first_out_of_set. rewrite Heq.
    rewrite (find_at_first (out_of_set sets item) before after f).
    + reflexivity.
    + intros h Hh. destruct (out_of_set sets item h) eqn:Hhout; [|reflexivity].
      apply out_of_set_true in Hhout. destruct (Hbefore h Hh Hhout).
    + apply out_of_set_true. exact Hout.
  - intros Herr f Hin. apply out_of_set_false.
    unfold first_out_of_set in Herr.
    destruct (List.find (out_of_set sets item) checked_fields) eqn:Hfind;
      [discriminate Herr|].
    exact (find_none _ _ Hfind f Hin).
Qed.

Lemma C1_invalid_enum_witness :
  let b := BaseItemBuilder.SetCurrency "zigzagzig"
             (BaseItemBuilder.SetExchCode "AU" BaseItemBuilder.GetBuilder) in
  populated_outside Sample.sets (BaseItemBuilder.item b) F_currency
  /\ (BaseItemBuilder.Build Sample.sets b).1.2 = Some (ErrBadEnum "currency").
Proof.
  intros b.
  assert (Hout : populated_outside Sample.sets (BaseItemBuilder.item b) F_currency).
  { apply out_of_set_true. vm_compute. reflexivity. }
  split; [exact Hout|].
  destruct (C1_invalid_enum_first_named Sample.sets b) as (_ & H & _).
  apply (H F_currency [F_exchCode; F_micCode]
           [F_marketSecDes; F_securityType; F_securityType2; F_stateCode]).
  - reflexivity.
  - intros h Hh Hhout. apply out_of_set_true in Hhout.
    destruct Hh as [<-|[<-|[]]]; vm_compute in Hhout; discriminate Hhout.
  - exact Hout.
Defined.

(** Counterexample for C1, which does not extend to the option type nor to
    every field out of its set.  The option type is not tested: a [Build]
    with an option type that is neither ["Call"] nor ["Put"] succeeds.  And
    an error names one field only: with two fields out of their sets, the
    second is not named. *)
Lemma C1_counterexample :
  (let b := BaseItemBuilder.SetOptionType "zigzagzig" BaseItemBuilder.GetBuilder in
   out_of_set Sample.sets (BaseItemBuilder.item b) F_optionType = true
   /\ (BaseItemBuilder.Build Sample.sets b).1.2 = None) /\
  (let b := BaseItemBuilder.SetCurrency "zigzagzig"
              (BaseItemBuilder.SetExchCode "zigzagzig" BaseItemBuilder.GetBuilder) in
   out_of_set Sample.sets (BaseItemBuilder.item b) F_currency = true
   /\ (BaseItemBuilder.Build Sample.sets b).1.2 = Some (ErrBadEnum "exchCode")
   /\ kind (ErrBadEnum "exchCode") <> InvalidEnumValue (field_name F_currency)).
Proof.
  split; cbv zeta.
  - split; vm_compute; reflexivity.
  - split; [vm_compute; reflexivity|].
    split; [vm_compute; reflexivity | vm_compute; discriminate].
Qed.

(** The option type has no part in the validation. *)
Lemma OptionType_not_tested sets (item : BaseItem.t) (optionType : string) :
  BaseItem.validate sets (BaseItem.with_OptionType optionType item)
  = BaseItem.validate sets item.
Proof. reflexivity. Qed.

(** ** Exchange code and MIC code *)

(** C2. When the exchange code and the MIC code are both populated,
    [Build] fails whatever the other fields hold.  The error is
    MutuallyExclusiveFields when no tested enumerated field is out of its
    reference set; otherwise it is the InvalidEnumValue error of the first
    field that is. *)
Theorem C2_exchCode_micCode_exclusive sets (b : BaseItemBuilder.t) :
  let item := BaseItemBuilder.item b in
  let err := (BaseItemBuilder.Build sets b).1.2 in
  BaseItem.ExchCode item <> "" -> BaseItem.MicCode item <> "" ->
  err <> None /\
  ((forall f, In f checked_fields -> ~ populated_outside sets item f) ->
   err = Some ErrExchMicTogether
   /\ kind ErrExchMicTogether = MutuallyExclusiveFields) /\
  (forall g, first_out_of_set sets item = Some g ->
   err = Some (ErrBadEnum (field_name g))).
Proof.
  intros item err Hexch Hmic. subst err. cbn [BaseItemBuilder.Build fst snd].
  fold item. rewrite BaseItem_validate_enum_stage.
  assert (Hrule : first_violation
                    (exclusive_rule :: interval_rules ++ conditional_rules) item
                  = Some ErrExchMicTogether).
  { cbn [first_violation]. unfold exclusive_rule.
    rewrite (eqb_empty_false _ Hexch), (eqb_empty_false _ Hmic). reflexivity. }
  rewrite Hrule. split; [|split].
  - destruct (first_out_of_set sets item); discriminate.
  - intros Hall. split; [|reflexivity].
    unfold first_out_of_set.
    destruct (List.find (out_of_set sets item) checked_fields) as [g|] eqn:Hfind;
      [|reflexivity].
    apply find_some in Hfind as [Hin Hout].
    apply out_of_set_true in Hout. destruct (Hall g Hin Hout).
  - intros g ->. reflexivity.
Qed.

Lemma C2_exchCode_micCode_witness :
  let b := BaseItemBuilder.SetMicCode "ADRK"
             (BaseItemBuilder.SetExchCode "AU" BaseItemBuilder.GetBuilder) in
  (BaseItemBuilder.Build Sample.sets b).1.2 = Some ErrExchMicTogether.
Proof.
  intros b.
  assert (Hexch : BaseItem.ExchCode (BaseItemBuilder.item b) <> "")
    by discriminate.
  assert (Hmic : BaseItem.MicCode (BaseItemBuilder.item b) <> "")
    by discriminate.
  destruct (C2_exchCode_micCode_exclusive Sample.sets b Hexch Hmic)
    as (_ & H & _).
  apply H. intros f Hf Hout. apply out_of_set_true in Hout.
  destruct Hf as [<-|[<-|[<-|[<-|[<-|[<-|[<-|[]]]]]]]];
    vm_compute in Hout; discriminate Hout.
Defined.

(** Counterexample for C2, which does not hold whatever the other fields
    are: with both codes populated and a currency out of its set, the error
    is the one of the currency, not the one of the two codes. *)
Lemma C2_counterexample :
  let b := BaseItemBuilder.SetCurrency "zigzagzig"
             (BaseItemBuilder.SetMicCode "ADRK"
                (BaseItemBuilder.SetExchCode "AU" BaseItemBuilder.GetBuilder)) in
  BaseItem.ExchCode (BaseItemBuilder.item b) <> ""
  /\ BaseItem.MicCode (BaseItemBuilder.item b) <> ""
  /\ (BaseItemBuilder.Build Sample.sets b).1.2 = Some (ErrBadEnum "currency")
  /\ kind (ErrBadEnum "currency") <> MutuallyExclusiveFields.
Proof.
  cbv zeta. split; [discriminate|]. split; [discriminate|].
  split; [vm_compute; reflexivity | discriminate].
Qed.

(** ** The zero item and repeated builds *)

(** C9. The zero-value BaseItem passes [validate] whatever the reference
    sets are, and [Build] on a fresh builder returns it with a nil error. *)
Theorem C9_zero_item_valid sets :
  BaseItem.validate sets BaseItem.zero = None
  /\ BaseItemBuilder.Build sets BaseItemBuilder.GetBuilder
     = ((BaseItem.zero, None), BaseItemBuilder.GetBuilder).
Proof.
  assert (H : BaseItem.validate sets BaseItem.zero = None) by reflexivity.
  split; [exact H|].
  unfold BaseItemBuilder.Build, BaseItemBuilder.GetBuilder; simpl.
  rewrite H. reflexivity.
Qed.

(** Why the zero item passes: an empty field is never out of its set, and a
    nil interval is passed over. *)
Lemma empty_field_passes sets (item : BaseItem.t) (f : EnumField) :
  field_value f item = "" -> enum_rule sets f item = None.
Proof.
  intros Hf. unfold enum_rule, out_of_set. rewrite Hf. reflexivity.
Qed.

Lemma nil_interval_passes {A : Type} `{validator A} (vs : list validator_value) :
  validate_each (ptr (@None A) :: vs) = validate_each vs.
Proof. reflexivity. Qed.

(** C10. [BaseItemBuilder.Build] leaves the builder as it was; and for
    both builders a second [Build] right after a first returns the same
    item and the same error, nil or not. *)
Theorem C10_Build_repeatable sets :
  (forall b : BaseItemBuilder.t,
     (BaseItemBuilder.Build sets b).2 = b
     /\ (BaseItemBuilder.Build sets (BaseItemBuilder.Build sets b).2).1
        = (BaseItemBuilder.Build sets b).1) /\
  (forall m : MappingItemBuilder.t,
     (MappingItemBuilder.Build sets (MappingItemBuilder.Build sets m).2).1
     = (MappingItemBuilder.Build sets m).1
     /\ (MappingItemBuilder.Build sets (MappingItemBuilder.Build sets m).2).2
        = (MappingItemBuilder.Build sets m).2).
Proof.
  split.
  - intros b. split; reflexivity.
  - intros m. split; reflexivity.
Qed.

(** The mapping builder, for its part, is changed by a first [Build]: the
    item it holds takes the fields of the embedded builder. *)
Lemma MappingItemBuilder_Build_changes_builder :
  let m := MappingItemBuilder.promoted (BaseItemBuilder.SetExchCode "US")
             (MappingItemBuilder.GetBuilder "TICKER" (any_string "IBM")) in
  (MappingItemBuilder.Build Sample.sets m).2 <> m.
Proof. cbv zeta. vm_compute. discriminate. Qed.

(** ** Expiration and maturity *)

(** One step through a test of [validate] that is known not to fail. *)
Ltac pass_test H :=
  match type of H with
  | (if ?c then Some _ else _) = None =>
      destruct c; [discriminate H|]
  | match ?v with Some _ => Some _ | None => _ end = None =>
      destruct v; [discriminate H|]
  end.

(** One step through a test of [validate] when any error will do. *)
Ltac fail_or_step :=
  match goal with
  | |- Some _ <> None => discriminate
  | |- (if true then Some _ else _) <> None => discriminate
  | |- (if ?c then Some _ else _) <> None => destruct c; [discriminate|]
  | |- match ?v with Some _ => Some _ | None => _ end <> None =>
      destruct v; [discriminate|]
  end.

Lemma expiration_without_Option_fails sets (item : BaseItem.t) :
  BaseItem.Expiration item <> None ->
  BaseItem.SecurityType2 item <> "Option" ->
  BaseItem.validate sets item <> None.
Proof.
  intros Hexp Hst2. unfold BaseItem.validate.
  apply String.eqb_neq in Hst2. rewrite Hst2.
  destruct (BaseItem.Expiration item); [|congruence].
  cbn [negb andb is_Some_b]. repeat fail_or_step.
Qed.

Lemma maturity_without_Pool_fails sets (item : BaseItem.t) :
  BaseItem.Maturity item <> None ->
  BaseItem.SecurityType2 item <> "Pool" ->
  BaseItem.validate sets item <> None.
Proof.
  intros Hmat Hst2. unfold BaseItem.validate.
  apply String.eqb_neq in Hst2. rewrite Hst2.
  destruct (BaseItem.Maturity item); [|congruence].
  cbn [negb andb is_Some_b]. repeat fail_or_step.
Qed.

(** One turn of the loop over the validators. *)
Lemma validate_each_ptr {A : Type} `{validator A} (p : option A)
    (vs : list validator_value) :
  validate_each (ptr p :: vs) =
  match match p with Some iv => validate iv | None => None end with
  | Some err => Some err
  | None => validate_each vs
  end.
Proof. destruct p; reflexivity. Qed.

(** The intervals of an item one after the other, once its enumerated
    fields and its two codes have passed. *)
Ltac pass_intervals H item :=
  rewrite !validate_each_ptr in *; cbn [validate_each] in *;
  destruct (BaseItem.Strike item) as [?iv|];
    [destruct (validate _); [discriminate H|]|];
  (destruct (BaseItem.ContractSize item) as [?iv|];
    [destruct (validate _); [discriminate H|]|]);
  (destruct (BaseItem.Coupon item) as [?iv|];
    [destruct (validate _); [discriminate H|]|]).

(** The outcome for an item that is valid but for its expiration. *)
Lemma validate_with_Expiration sets (item : BaseItem.t) (iv : interval string) :
  BaseItem.validate sets (BaseItem.with_Expiration None item) = None ->
  BaseItem.validate sets (BaseItem.with_Expiration (Some iv) item) =
  match validate iv with
  | Some err => Some err
  | None =>
      if negb (String.eqb (BaseItem.SecurityType2 item) "Option")
      then Some ErrExpirationOnlyOption else None
  end.
Proof.
  unfold BaseItem.validate.
  cbn -[validate validate_each String.eqb Has]. intros H.
  do 8 pass_test H.
  pass_intervals H item;
  (destruct (validate iv); [reflexivity|]);
  (destruct (BaseItem.Maturity item) as [iv5|];
    [destruct (validate iv5); [discriminate H|]|]);
  cbn [is_Some_b] in *; rewrite ?andb_false_r, ?andb_true_r in *;
  (destruct (negb (String.eqb (BaseItem.SecurityType2 item) "Option"));
    [reflexivity|]);
  first [exact H | reflexivity].
Qed.

(** The outcome for an item that is valid but for its maturity. *)
Lemma validate_with_Maturity sets (item : BaseItem.t) (iv : interval string) :
  BaseItem.validate sets (BaseItem.with_Maturity None item) = None ->
  BaseItem.validate sets (BaseItem.with_Maturity (Some iv) item) =
  match validate iv with
  | Some err => Some err
  | None =>
      if negb (String.eqb (BaseItem.SecurityType2 item) "Pool")
      then Some ErrMaturityOnlyPool else None
  end.
Proof.
  unfold BaseItem.validate.
  cbn -[validate validate_each String.eqb Has]. intros H.
  do 8 pass_test H.
  pass_intervals H item;
  (destruct (BaseItem.Expiration item) as [iv4|];
    [destruct (validate iv4); [discriminate H|]|]);
  (destruct (validate iv); [reflexivity|]);
  cbn [is_Some_b] in *; rewrite ?andb_false_r, ?andb_true_r in *;
  try pass_test H; reflexivity.
Qed.

(** C5. When the expiration interval is populated and security type 2 is
    not ["Option"], [Build] fails, and so it does when the maturity
    interval is populated and security type 2 is not ["Pool"]; on an item
    whose other fields are valid and whose interval is valid the error is
    the one of the conditional field.  With security type 2 equal to
    ["Option"] (to ["Pool"]), a valid expiration (maturity) interval and
    the other fields valid, [Build] succeeds. *)
Theorem C5_expiration_maturity_conditional sets (item : BaseItem.t)
    (iv : interval string) :
  let Build_err it := (BaseItemBuilder.Build sets (BaseItemBuilder.mk it)).1.2 in
  (BaseItem.Expiration item <> None ->
   BaseItem.SecurityType2 item <> "Option" ->
   Build_err item <> None) /\
  (BaseItem.Maturity item <> None ->
   BaseItem.SecurityType2 item <> "Pool" ->
   Build_err item <> None) /\
  (Build_err (BaseItem.with_Expiration None item) = None ->
   validate iv = None ->
   (BaseItem.SecurityType2 item <> "Option" ->
    Build_err (BaseItem.with_Expiration (Some iv) item)
    = Some ErrExpirationOnlyOption) /\
   (BaseItem.SecurityType2 item = "Option" ->
    Build_err (BaseItem.with_Expiration (Some iv) item) = None)) /\
  (Build_err (BaseItem.with_Maturity None item) = None ->
   validate iv = None ->
   (BaseItem.SecurityType2 item <> "Pool" ->
    Build_err (BaseItem.with_Maturity (Some iv) item)
    = Some ErrMaturityOnlyPool) /\
   (BaseItem.SecurityType2 item = "Pool" ->
    Build_err (BaseItem.with_Maturity (Some iv) item) = None)).
Proof.
  cbv zeta. cbn [BaseItemBuilder.Build BaseItemBuilder.item fst snd].
  split; [|split; [|split]].
  - apply expiration_without_Option_fails.
  - apply maturity_without_Pool_fails.
  - intros Hother Hiv.
    rewrite (validate_with_Expiration sets item iv Hother), Hiv. split.
    + intros Hst2. apply String.eqb_neq in Hst2. rewrite Hst2. reflexivity.
    + intros ->. reflexivity.
  - intros Hother Hiv.
    rewrite (validate_with_Maturity sets item iv Hother), Hiv. split.
    + intros Hst2. apply String.eqb_neq in Hst2. rewrite Hst2. reflexivity.
    + intros ->. reflexivity.
Qed.

Lemma C5_expiration_maturity_witness :
  let Build_err it :=
    (BaseItemBuilder.Build Sample.sets (BaseItemBuilder.mk it)).1.2 in
  Build_err (BaseItem.with_Expiration (Some Sample.year_2021) Sample.valid_1) = None
  /\ Build_err (BaseItem.with_Maturity (Some Sample.year_2021) Sample.valid_2) = None
  /\ Build_err (BaseItem.with_Expiration (Some Sample.year_2021) Sample.valid_2)
     = Some ErrExpirationOnlyOption
  /\ Build_err (BaseItem.with_Maturity (Some Sample.year_2021) Sample.valid_1)
     = Some ErrMaturityOnlyPool
  /\ Build_err (BaseItem.with_Maturity (Some Sample.year_2021)
                  (BaseItem.with_Currency "zigzagzig" Sample.valid_1)) <> None.
Proof.
  cbv zeta. split; [|split; [|split; [|split]]].
  - destruct (C5_expiration_maturity_conditional Sample.sets Sample.valid_1
                Sample.year_2021) as (_ & _ & H & _).
    apply H; reflexivity.
  - destruct (C5_expiration_maturity_conditional Sample.sets Sample.valid_2
                Sample.year_2021) as (_ & _ & _ & H).
    apply H; reflexivity.
  - destruct (C5_expiration_maturity_conditional Sample.sets Sample.valid_2
                Sample.year_2021) as (_ & _ & H & _).
    apply H; [reflexivity | reflexivity | discriminate].
  - destruct (C5_expiration_maturity_conditional Sample.sets Sample.valid_1
                Sample.year_2021) as (_ & _ & _ & H).
    apply H; [reflexivity | reflexivity | discriminate].
  - destruct (C5_expiration_maturity_conditional Sample.sets
                (BaseItem.with_Maturity (Some Sample.year_2021)
                   (BaseItem.with_Currency "zigzagzig" Sample.valid_1))
                Sample.year_2021) as (_ & H & _).
    apply H; discriminate.
Defined.

(** The setters of the builder lead to the items of these examples. *)
Lemma Sample_valid_2_built :
  BaseItemBuilder.SetMaturity (any_string "2021-01-01", any_string "2022-01-01")
    (BaseItemBuilder.SetStateCode "AC"
       (BaseItemBuilder.SetSecurityType2 "Pool"
          (BaseItemBuilder.SetMicCode "BMTF" BaseItemBuilder.GetBuilder)))
  = Some (BaseItemBuilder.mk
            (BaseItem.with_Maturity (Some Sample.year_2021) Sample.valid_2)).
Proof. reflexivity. Qed.

(** A bound that is not of the type of the interval makes the setter
    panic, as the tests expect. *)
Lemma setters_panic (b : BaseItemBuilder.t) :
  BaseItemBuilder.SetStrike (any_nil, any_string "zigzagzig") b = None
  /\ BaseItemBuilder.SetExpiration (any_float64 Sample.two, any_nil) b = None.
Proof. split; reflexivity. Qed.

(** ** Mapping items *)

(** C6. For a mapping builder whose base fields are valid: an identifier
    type outside the ID-type reference set fails with the InvalidEnumValue
    error of the identifier type; with the identifier type ["BASE_TICKER"]
    or ["ID_EXCH_SYMBOL"], a member of that set, [Build] fails with
    MissingRequiredField when security type 2 is empty and succeeds when
    it is populated. *)
Theorem C6_securityType2_required sets (m : MappingItemBuilder.t) :
  let base := BaseItemBuilder.item (MappingItemBuilder.BaseItemBuilder_ m) in
  let idType := MappingItem.Type_ (MappingItemBuilder.item m) in
  let err := (MappingItemBuilder.Build sets m).1.2 in
  BaseItem.validate sets base = None ->
  (idType ∉ idTypeSet sets ->
   err = Some (ErrBadIdType idType)
   /\ kind (ErrBadIdType idType) = InvalidEnumValue "idType") /\
  (idType = "BASE_TICKER" \/ idType = "ID_EXCH_SYMBOL" ->
   idType ∈ idTypeSet sets ->
   (BaseItem.SecurityType2 base = "" ->
    err = Some ErrSecurityType2Required
    /\ kind ErrSecurityType2Required = MissingRequiredField "securityType2") /\
   (BaseItem.SecurityType2 base <> "" -> err = None)).
Proof.
  intros base idType err Hbase. subst err.
  unfold MappingItemBuilder.Build, MappingItem.validate.
  cbn [fst snd MappingItemBuilder.item MappingItemBuilder.BaseItemBuilder_
       MappingItem.BaseItem_ MappingItem.Type_ MappingItem.Value].
  fold base idType. rewrite Hbase. split.
  - intros Hnotin. apply Has_false in Hnotin. rewrite Hnotin.
    split; reflexivity.
  - intros Htype Hin. apply Has_true in Hin. rewrite Hin. cbn [negb].
    assert (Hreq : String.eqb idType "BASE_TICKER"
                   || String.eqb idType "ID_EXCH_SYMBOL" = true).
    { destruct Htype as [-> | ->]; reflexivity. }
    rewrite Hreq. split.
    + intros ->. split; reflexivity.
    + intros Hst2. rewrite (eqb_empty_false _ Hst2). reflexivity.
Qed.

Lemma C6_securityType2_required_witness :
  let missing := MappingItemBuilder.GetBuilder "BASE_TICKER" (any_string "IBM") in
  let given :=
    MappingItemBuilder.promoted (BaseItemBuilder.SetSecurityType2 "Common Stock")
      (MappingItemBuilder.GetBuilder "ID_EXCH_SYMBOL" (any_string "IBM")) in
  let unknown := MappingItemBuilder.GetBuilder "zigzagzig" (any_string "IBM") in
  (MappingItemBuilder.Build Sample.sets missing).1.2 = Some ErrSecurityType2Required
  /\ (MappingItemBuilder.Build Sample.sets given).1.2 = None
  /\ (MappingItemBuilder.Build Sample.sets unknown).1.2
     = Some (ErrBadIdType "zigzagzig").
Proof.
  intros missing given unknown. split; [|split].
  - destruct (C6_securityType2_required Sample.sets missing eq_refl) as (_ & H).
    apply H; [left; reflexivity | apply Has_true; reflexivity | reflexivity].
  - destruct (C6_securityType2_required Sample.sets given eq_refl) as (_ & H).
    apply H; [right; reflexivity | apply Has_true; reflexivity | discriminate].
  - destruct (C6_securityType2_required Sample.sets unknown eq_refl) as (H & _).
    apply H. apply Has_false. reflexivity.
Defined.

(** ** Build *)

(** C7. [Build] returns the item that the builder holds, whether the
    validation passes or not: with a nil error when every rule passes, and
    otherwise with the error of the first rule that fails, and of that one
    only. *)
Theorem C7_Build_first_failing_rule sets :
  (forall b : BaseItemBuilder.t,
     let result := (BaseItemBuilder.Build sets b).1 in
     result.1 = BaseItemBuilder.item b
     /\ (result.2 = None <->
         Forall (fun r => r result.1 = None) (base_rules sets))
     /\ (forall err, result.2 = Some err <->
         exists before r after,
           base_rules sets = before ++ r :: after
           /\ Forall (fun r' => r' result.1 = None) before
           /\ r result.1 = Some err)) /\
  (forall m : MappingItemBuilder.t,
     let result := (MappingItemBuilder.Build sets m).1 in
     result.1 = MappingItem.mk
                  (BaseItemBuilder.item (MappingItemBuilder.BaseItemBuilder_ m))
                  (MappingItem.Type_ (MappingItemBuilder.item m))
                  (MappingItem.Value (MappingItemBuilder.item m))
     /\ (result.2 = None <->
         Forall (fun r => r result.1 = None) (mapping_rules sets))
     /\ (forall err, result.2 = Some err <->
         exists before r after,
           mapping_rules sets = before ++ r :: after
           /\ Forall (fun r' => r' result.1 = None) before
           /\ r result.1 = Some err)).
Proof.
  split.
  - intros b result. subst result.
    cbn [BaseItemBuilder.Build fst snd].
    rewrite BaseItem_validate_first_violation.
    split; [reflexivity|]. split.
    + apply first_violation_None.
    + intros err. apply first_violation_Some.
  - intros m result. subst result.
    unfold MappingItemBuilder.Build.
    cbn [fst snd MappingItemBuilder.item MappingItemBuilder.BaseItemBuilder_].
    rewrite MappingItem_validate_first_violation.
    split; [reflexivity|]. split.
    + apply first_violation_None.
    + intros err. apply first_violation_Some.
Qed.

Lemma C7_Build_witness :
  let b := BaseItemBuilder.mk
             (BaseItem.with_Strike (Some (Sample.ten, Sample.two))
                (BaseItem.with_Expiration (Some Sample.year_2021)
                   (BaseItem.with_ExchCode "US" BaseItem.zero))) in
  (BaseItemBuilder.Build Sample.sets b).1.1 = BaseItemBuilder.item b
  /\ (BaseItemBuilder.Build Sample.sets b).1.2 = Some ErrBadInterval.
Proof.
  intros b.
  destruct (C7_Build_first_failing_rule Sample.sets) as (H & _).
  destruct (H b) as (Hitem & _ & Herr).
  split; [exact Hitem|].
  apply Herr.
  exists (enum_rules Sample.sets ++ [exclusive_rule]),
         (interval_rule BaseItem.Strike),
         [interval_rule BaseItem.ContractSize; interval_rule BaseItem.Coupon;
          interval_rule BaseItem.Expiration; interval_rule BaseItem.Maturity;
          expiration_rule; maturity_rule].
  split; [reflexivity|]. split; [|reflexivity].
  repeat constructor.
Defined.

(** Counterexample for C7, which does not hold for the item returned on a
    failure: it is not the zero value, it is the item of the builder. *)
Lemma C7_counterexample :
  let b := BaseItemBuilder.SetExchCode "zigzagzig" BaseItemBuilder.GetBuilder in
  let m := MappingItemBuilder.GetBuilder "zigzagzig" (any_string "IBM") in
  (BaseItemBuilder.Build Sample.sets b).1
  = (BaseItem.with_ExchCode "zigzagzig" BaseItem.zero, Some (ErrBadEnum "exchCode"))
  /\ BaseItem.with_ExchCode "zigzagzig" BaseItem.zero <> BaseItem.zero
  /\ (MappingItemBuilder.Build Sample.sets m).1
     = (MappingItem.mk BaseItem.zero "zigzagzig" (any_string "IBM"),
        Some (ErrBadIdType "zigzagzig"))
  /\ MappingItem.mk BaseItem.zero "zigzagzig" (any_string "IBM") <> MappingItem.zero.
Proof.
  cbv zeta. split; [vm_compute; reflexivity|].
  split; [discriminate|].
  split; [vm_compute; reflexivity | discriminate].
Qed.

(** ** Pages *)

Section CallsProperties.

Context {Server : Type}.
Variable json_Marshal : searchOrFilterRequest -> option string.
Variable http_Do : Request -> Server -> DoResult * Server.
Variable json_Unmarshal_SearchResponse : string -> SearchResponse.t * option error.
Variable json_Unmarshal_FilterResponse : string -> FilterResponse.t * option error.

Local Abbreviation Search' :=
  (Search json_Marshal http_Do json_Unmarshal_SearchResponse).
Local Abbreviation Filter' :=
  (Filter json_Marshal http_Do json_Unmarshal_FilterResponse).
Local Abbreviation SearchNext :=
  (SearchResponse_Next json_Marshal http_Do json_Unmarshal_SearchResponse).
Local Abbreviation FilterNext :=
  (FilterResponse_Next json_Marshal http_Do json_Unmarshal_FilterResponse).

(** What a call leaves behind: nothing when the request cannot be
    encoded, and otherwise one more request sent, to the endpoint, with
    the encoded item, query and cursor as its body. *)
Lemma postBaseItem_sent {T : Type} (zero : T)
    (json_Unmarshal : string -> T * option error)
    (endpoint : string) (item : BaseItem.t) (query start : string)
    (w : World Server) :
  let run := postBaseItem json_Marshal http_Do zero json_Unmarshal
               endpoint item query start w in
  match json_Marshal {| BaseItem_ := item; Query := query; Start := start |} with
  | Some body =>
      config run.2 = config w
      /\ sent run.2 = sent w ++ [newRequest (apiUrl (config w)) (apiKey (config w))
                                    endpoint body]
  | None => run = ((zero, Some ErrMarshal), w)
  end.
Proof.
  unfold postBaseItem.
  destruct (json_Marshal _) as [body|]; [|reflexivity].
  unfold bind, APIBaseUrl, APIKey, Do, ret.
  destruct (http_Do _ (server w)) as [resp s].
  destruct resp as [|code page]; [split; reflexivity|].
  destruct (httpStatusMap !! code); split; reflexivity.
Qed.

Lemma Search_retains (item : BaseItem.t) (query start : string) (w : World Server) :
  SearchResponse.baseitem (Search' item query start w).1.1 = item
  /\ SearchResponse.query (Search' item query start w).1.1 = query
  /\ (Search' item query start w).2
     = (postBaseItem json_Marshal http_Do SearchResponse.zero
          json_Unmarshal_SearchResponse "/search" item query start w).2.
Proof.
  unfold Search, bind, ret.
  destruct (postBaseItem _ _ _ _ _ _ _ _ w) as [[res err] w'].
  repeat split.
Qed.

Lemma Filter_retains (item : BaseItem.t) (query start : string) (w : World Server) :
  let sr := FilterResponse.SearchResponse_ (Filter' item query start w).1.1 in
  SearchResponse.baseitem sr = item
  /\ SearchResponse.query sr = query
  /\ (Filter' item query start w).2
     = (postBaseItem json_Marshal http_Do FilterResponse.zero
          json_Unmarshal_FilterResponse "/filter" item query start w).2.
Proof.
  unfold Filter, bind, ret.
  destruct (postBaseItem _ _ _ _ _ _ _ _ w) as [[res err] w'].
  repeat split.
Qed.


End CallsProperties.


(** ** Scenarios *)

(** An exchange code and a security type 2, nothing else: the build
    succeeds and the item has the other fields empty. *)
Example scenario_exchange_and_type :
  BaseItemBuilder.Build Sample.sets
    (BaseItemBuilder.SetSecurityType2 "Common Stock"
       (BaseItemBuilder.SetExchCode "US" BaseItemBuilder.GetBuilder))
  = ((BaseItem.mk "US" "" "" "" "" "Common Stock" false ""
        None None None None None "", None),
     BaseItemBuilder.SetSecurityType2 "Common Stock"
       (BaseItemBuilder.SetExchCode "US" BaseItemBuilder.GetBuilder)).
Proof. reflexivity. Qed.

(** A strike interval without bounds: the build fails on the interval. *)
Example scenario_strike_without_bounds :
  exists b,
    BaseItemBuilder.SetStrike (any_nil, any_nil) BaseItemBuilder.GetBuilder = Some b
    /\ (BaseItemBuilder.Build Sample.sets b).1.2 = Some ErrNullInterval.
Proof. eexists. split; reflexivity. Qed.

(** A contract size with its bounds in the wrong order. *)
Example scenario_contract_size_reversed :
  exists b,
    BaseItemBuilder.SetContractSize
      (any_float64 Sample.ten, any_float64 Sample.two) BaseItemBuilder.GetBuilder
    = Some b
    /\ (BaseItemBuilder.Build Sample.sets b).1.2 = Some ErrBadInterval.
Proof. eexists. split; reflexivity. Qed.

(** A mapping item for the ticker IBM on the exchange US. *)
Example scenario_mapping_ticker :
  (MappingItemBuilder.Build Sample.sets
     (MappingItemBuilder.promoted (BaseItemBuilder.SetExchCode "US")
        (MappingItemBuilder.GetBuilder "TICKER" (any_string "IBM")))).1
  = (MappingItem.mk (BaseItem.with_ExchCode "US" BaseItem.zero) "TICKER"
       (any_string "IBM"), None).
Proof. reflexivity. Qed.

(** Two pages and then the end: the cursor of the first page is replayed,
    the page that comes back has no cursor, and [Next] on it sends
    nothing. *)
Example scenario_pages :
  let Next := SearchResponse_Next Sample.json_Marshal Sample.http_Do
                Sample.json_Unmarshal_SearchResponse in
  let '((second, err), w) := Next Sample.page Sample.world in
  err = None
  /\ SearchResponse.NextHash second = ""
  /\ List.length (sent w) = 1%nat
  /\ Next second w = ((SearchResponse.zero, Some ErrNoMoreResults), w).
Proof. repeat split. Qed.

(** * Further properties *)

(** ** What a valid item is *)

Lemma interval_float64_valid (iv : interval float64.t) :
  validate iv = None <-> valid_float64_interval iv.
Proof.
  destruct iv as [lo hi].
  unfold validate, interval_float64_validate, valid_float64_interval; simpl.
  destruct (float64.IsInf lo (-1)), (float64.IsInf hi 1), (float64.gt lo hi);
    simpl; split; try discriminate; try reflexivity;
    try (intros [Hopen Hgt]; first [discriminate Hgt | destruct Hopen; split; reflexivity]);
    intros _; split; try reflexivity; intros [H1 H2]; discriminate.
Qed.

Lemma interval_string_valid (iv : interval string) :
  validate iv = None <-> valid_date_interval iv.
Proof.
  destruct iv as [lo hi]. rewrite interval_string_validate_unfold.
  unfold valid_date_interval; simpl.
  destruct (String.eqb_spec lo "") as [->|Hlo];
    destruct (String.eqb_spec hi "") as [->|Hhi]; simpl.
  - split; [discriminate|]. intros (H & _). destruct H. split; reflexivity.
  - destruct (time.parse_DateOnly hi) as [e|] eqn:He; simpl.
    + split; [|reflexivity]. intros _. repeat split.
      * intros [_ H]. exact (Hhi H).
      * intros H. destruct H. reflexivity.
      * discriminate.
      * intros s e' Hs. discriminate Hs.
    + split; [discriminate|]. intros (_ & _ & H & _). destruct (H Hhi eq_refl).
  - destruct (time.parse_DateOnly lo) as [s|] eqn:Hs; simpl.
    + split; [|reflexivity]. intros _. repeat split.
      * intros [H _]. exact (Hlo H).
      * discriminate.
      * intros H. destruct H. reflexivity.
      * intros s' e _ He. discriminate He.
    + split; [discriminate|]. intros (_ & H & _). destruct (H Hlo eq_refl).
  - destruct (time.parse_DateOnly lo) as [s|] eqn:Hs; simpl.
    + destruct (time.parse_DateOnly hi) as [e|] eqn:He; simpl.
      * destruct (time.After s e) eqn:Haft.
        -- split; [discriminate|]. intros (_ & _ & _ & H).
           rewrite (H s e eq_refl eq_refl) in Haft. discriminate Haft.
        -- split; [|reflexivity]. intros _. repeat split.
           ++ intros [H _]. exact (Hlo H).
           ++ discriminate.
           ++ discriminate.
           ++ intros s' e' [= <-] [= <-]. exact Haft.
      * split; [discriminate|]. intros (_ & _ & H & _). destruct (H Hhi eq_refl).
    + split; [discriminate|]. intros (_ & H & _). destruct (H Hlo eq_refl).
Qed.

Lemma enum_rules_pass sets (item : BaseItem.t) :
  Forall (fun r : Rule BaseItem.t => r item = None) (enum_rules sets) <->
  (forall f, In f checked_fields ->
     field_value f item = "" \/ field_value f item ∈ reference_set sets f).
Proof.
  unfold enum_rules. rewrite List.Forall_forall. split.
  - intros H f Hf. apply out_of_set_false.
    specialize (H (enum_rule sets f) (in_map (enum_rule sets) _ _ Hf)).
    unfold enum_rule in H.
    destruct (out_of_set sets item f); [discriminate H | reflexivity].
  - intros H r Hr. apply in_map_iff in Hr as (f & <- & Hf).
    unfold enum_rule.
    rewrite (proj2 (out_of_set_false sets item f) (H f Hf)). reflexivity.
Qed.

Lemma exclusive_rule_pass (item : BaseItem.t) :
  exclusive_rule item = None <->
  (BaseItem.ExchCode item = "" \/ BaseItem.MicCode item = "").
Proof.
  unfold exclusive_rule.
  destruct (String.eqb_spec (BaseItem.ExchCode item) "") as [He|He];
    destruct (String.eqb_spec (BaseItem.MicCode item) "") as [Hm|Hm]; simpl;
    split; try discriminate; try reflexivity; auto.
  intros [H|H]; contradiction.
Qed.

Lemma interval_rule_pass {A : Type} `{validator A}
    (field : BaseItem.t -> option A) (item : BaseItem.t) :
  interval_rule field item = None <->
  (forall iv, field item = Some iv -> validate iv = None).
Proof.
  unfold interval_rule. destruct (field item) as [iv|].
  - split; [intros Hv iv' [= <-]; exact Hv | intros Hv; apply Hv; reflexivity].
  - split; [intros _ iv Hiv; discriminate Hiv | reflexivity].
Qed.

Lemma expiration_rule_pass (item : BaseItem.t) :
  expiration_rule item = None <->
  (forall iv, BaseItem.Expiration item = Some iv ->
     BaseItem.SecurityType2 item = "Option").
Proof.
  unfold expiration_rule.
  destruct (String.eqb_spec (BaseItem.SecurityType2 item) "Option") as [Hs|Hs];
    destruct (BaseItem.Expiration item) as [iv|]; simpl;
    split; try discriminate; try reflexivity; auto.
  intros H. destruct (Hs (H iv eq_refl)).
Qed.

Lemma maturity_rule_pass (item : BaseItem.t) :
  maturity_rule item = None <->
  (forall iv, BaseItem.Maturity item = Some iv ->
     BaseItem.SecurityType2 item = "Pool").
Proof.
  unfold maturity_rule.
  destruct (String.eqb_spec (BaseItem.SecurityType2 item) "Pool") as [Hs|Hs];
    destruct (BaseItem.Maturity item) as [iv|]; simpl;
    split; try discriminate; try reflexivity; auto.
  intros H. destruct (Hs (H iv eq_refl)).
Qed.

(** X1. [BaseItem.validate] returns a nil error exactly on the items that
    keep the invariants of a Base Item: every tested enumerated field empty
    or in its set, not both codes, every populated interval well formed,
    an expiration only with security type 2 ["Option"], a maturity only
    with ["Pool"]. *)
Theorem BaseItem_validate_None_iff sets (item : BaseItem.t) :
  BaseItem.validate sets item = None <-> valid_BaseItem sets item.
Proof.
  rewrite BaseItem_validate_first_violation, first_violation_None.
  unfold base_rules, interval_rules, conditional_rules.
  rewrite Forall_app, enum_rules_pass. cbn [app].
  rewrite !Forall_cons_iff, exclusive_rule_pass, !interval_rule_pass,
    expiration_rule_pass, maturity_rule_pass.
  split.
  - intros (Henum & Hexcl & Hs & Hc & Hp & He & Hm & Hce & Hcm & _).
    constructor; try assumption.
    + intros iv Hiv. apply interval_float64_valid. exact (Hs iv Hiv).
    + intros iv Hiv. apply interval_float64_valid. exact (Hc iv Hiv).
    + intros iv Hiv. apply interval_float64_valid. exact (Hp iv Hiv).
    + intros iv Hiv. split; [|exact (Hce iv Hiv)].
      apply interval_string_valid. exact (He iv Hiv).
    + intros iv Hiv. split; [|exact (Hcm iv Hiv)].
      apply interval_string_valid. exact (Hm iv Hiv).
  - intros [Henum Hexcl Hs Hc Hp He Hm].
    repeat split; try assumption; try constructor.
    + intros iv Hiv. apply interval_float64_valid. exact (Hs iv Hiv).
    + intros iv Hiv. apply interval_float64_valid. exact (Hc iv Hiv).
    + intros iv Hiv. apply interval_float64_valid. exact (Hp iv Hiv).
    + intros iv Hiv. apply interval_string_valid. exact (proj1 (He iv Hiv)).
    + intros iv Hiv. apply interval_string_valid. exact (proj1 (Hm iv Hiv)).
    + intros iv Hiv. exact (proj2 (He iv Hiv)).
    + intros iv Hiv. exact (proj2 (Hm iv Hiv)).
Qed.

Lemma BaseItem_validate_None_iff_witness :
  valid_BaseItem Sample.sets
    (BaseItem.with_Expiration (Some Sample.year_2021) Sample.valid_1)
  /\ ~ valid_BaseItem Sample.sets
         (BaseItem.with_Strike (Some (Sample.ten, Sample.two)) Sample.valid_1).
Proof.
  split.
  - apply (BaseItem_validate_None_iff Sample.sets). reflexivity.
  - intros Hvalid.
    apply (BaseItem_validate_None_iff Sample.sets) in Hvalid.
    vm_compute in Hvalid. discriminate Hvalid.
Defined.

(** X2. A Base Item that passes [validate] never carries both an
    expiration and a maturity interval, and never both an exchange code and
    a MIC code. *)
Theorem valid_item_never_both sets (item : BaseItem.t) :
  BaseItem.validate sets item = None ->
  (BaseItem.Expiration item = None \/ BaseItem.Maturity item = None)
  /\ (BaseItem.ExchCode item = "" \/ BaseItem.MicCode item = "").
Proof.
  intros Hvalid. apply BaseItem_validate_None_iff in Hvalid.
  destruct Hvalid as [_ Hexcl _ _ _ He Hm]. split; [|exact Hexcl].
  destruct (BaseItem.Expiration item) as [ive|]; [|left; reflexivity].
  destruct (BaseItem.Maturity item) as [ivm|]; [|right; reflexivity].
  destruct (He ive eq_refl) as [_ Hoption].
  destruct (Hm ivm eq_refl) as [_ Hpool].
  rewrite Hoption in Hpool. discriminate Hpool.
Qed.

Lemma valid_item_never_both_witness :
  let item := BaseItem.with_Expiration (Some Sample.year_2021) Sample.valid_1 in
  (BaseItem.Expiration item = None \/ BaseItem.Maturity item = None)
  /\ (BaseItem.ExchCode item = "" \/ BaseItem.MicCode item = "").
Proof.
  intros item. apply (valid_item_never_both Sample.sets item). reflexivity.
Defined.

(** X3. [MappingItem.validate] returns a nil error exactly on the items
    whose Base Item keeps its invariants, whose identifier type is in the
    ID-type set, and which have a security type 2 when the identifier type
    is ["BASE_TICKER"] or ["ID_EXCH_SYMBOL"].  The identifier type is tested
    even when it is empty. *)
Theorem MappingItem_validate_None_iff sets (item : MappingItem.t) :
  MappingItem.validate sets item = None <-> valid_MappingItem sets item.
Proof.
  unfold MappingItem.validate.
  destruct (BaseItem.validate sets (MappingItem.BaseItem_ item)) as [err|] eqn:Hbase.
  - split; [discriminate|]. intros [Hb _ _].
    apply BaseItem_validate_None_iff in Hb. congruence.
  - apply BaseItem_validate_None_iff in Hbase.
    destruct (Has (idTypeSet sets) (MappingItem.Type_ item)) eqn:Hid; simpl.
    + apply Has_true in Hid.
      destruct (String.eqb_spec (MappingItem.Type_ item) "BASE_TICKER") as [Ht|Ht];
        destruct (String.eqb_spec (MappingItem.Type_ item) "ID_EXCH_SYMBOL") as [Hi|Hi];
        destruct (String.eqb_spec
                    (BaseItem.SecurityType2 (MappingItem.BaseItem_ item)) "")
          as [Hs|Hs]; simpl;
        split; try discriminate; try reflexivity;
        try (intros [_ _ Hreq]; exfalso; apply Hreq; auto; fail);
        intros _; constructor; auto; intros [H|H]; contradiction.
    + apply Has_false in Hid. split; [discriminate|].
      intros [_ Hin _]. contradiction.
Qed.

Lemma MappingItem_validate_None_iff_witness :
  valid_MappingItem Sample.sets
    (MappingItem.mk (BaseItem.with_ExchCode "US" BaseItem.zero) "TICKER"
       (any_string "IBM"))
  /\ ~ valid_MappingItem Sample.sets (MappingItem.mk BaseItem.zero "" any_nil).
Proof.
  split.
  - apply (MappingItem_validate_None_iff Sample.sets). reflexivity.
  - intros Hvalid.
    apply (MappingItem_validate_None_iff Sample.sets) in Hvalid.
    vm_compute in Hvalid. discriminate Hvalid.
Defined.

(** X4. Growing the reference tables never invalidates an item: an item
    that passes [validate] with some tables passes with any tables that
    include them, for Base Items and for Mapping Items. *)
Theorem validate_monotone sets sets' :
  sets_included sets sets' ->
  (forall item : BaseItem.t,
     BaseItem.validate sets item = None -> BaseItem.validate sets' item = None)
  /\ (forall item : MappingItem.t,
        MappingItem.validate sets item = None ->
        MappingItem.validate sets' item = None).
Proof.
  intros (H1 & H2 & H3 & H4 & H5 & H6 & H7 & H8).
  assert (Hbase : forall item, valid_BaseItem sets item -> valid_BaseItem sets' item).
  { intros item [Henum Hexcl Hs Hc Hp He Hm].
    constructor; try assumption.
    intros f Hf. destruct (Henum f Hf) as [Hempty|Hin]; [left; exact Hempty|].
    right. destruct f; simpl in *;
      first [exact Hin | eapply elem_of_weaken; [exact Hin | eassumption]]. }
  split.
  - intros item Hv. apply BaseItem_validate_None_iff.
    apply Hbase. apply BaseItem_validate_None_iff. exact Hv.
  - intros item Hv. apply MappingItem_validate_None_iff.
    apply MappingItem_validate_None_iff in Hv as [Hb Hid Hreq].
    constructor; [apply Hbase; exact Hb | | exact Hreq].
    eapply elem_of_weaken; [exact Hid | exact H8].
Qed.

Lemma validate_monotone_witness :
  let more := {|
    exchCodeSet := {[ "US"; "AU"; "LN" ]};
    micCodeSet := micCodeSet Sample.sets;
    currencySet := currencySet Sample.sets;
    marketSecDesSet := marketSecDesSet Sample.sets;
    securityTypeSet := securityTypeSet Sample.sets;
    securityType2Set := securityType2Set Sample.sets;
    stateCodeSet := stateCodeSet Sample.sets;
    idTypeSet := idTypeSet Sample.sets |} in
  BaseItem.validate more Sample.valid_1 = None.
Proof.
  intros more.
  assert (Hincl : sets_included Sample.sets more).
  { repeat split; simpl; try reflexivity.
    apply union_subseteq_l. }
  destruct (validate_monotone Sample.sets more Hincl) as [H _].
  apply H. reflexivity.
Defined.

(** ** Setters *)

(** X5. [intepretRange] panics exactly when a bound is neither nil nor of
    the type of the interval; in particular an integer bound of a numeric
    interval panics.  Otherwise a nil low bound becomes negative infinity
    (the empty string for dates), a nil high bound positive infinity (the
    empty string), and a given bound is kept. *)
Theorem intepretRange_total_on_typed_bounds (lo hi : any) :
  (intepretRange_float64 (lo, hi) = None <->
   ~ ((lo = any_nil \/ exists f, lo = any_float64 f)
      /\ (hi = any_nil \/ exists f, hi = any_float64 f))) /\
  (intepretRange_string (lo, hi) = None <->
   ~ ((lo = any_nil \/ exists s, lo = any_string s)
      /\ (hi = any_nil \/ exists s, hi = any_string s))) /\
  (forall iv, intepretRange_float64 (lo, hi) = Some iv ->
     fst iv = match lo with any_float64 f => f | _ => float64.Inf (-1) end
     /\ snd iv = match hi with any_float64 f => f | _ => float64.Inf 1 end) /\
  (forall iv, intepretRange_string (lo, hi) = Some iv ->
     fst iv = match lo with any_string s => s | _ => "" end
     /\ snd iv = match hi with any_string s => s | _ => "" end).
Proof.
  split; [|split; [|split]].
  - destruct lo, hi; simpl; split; try discriminate; try reflexivity;
      try (intros H; exfalso; apply H; split; eauto; fail);
      intros _ [[Hl|[? Hl]] [Hh|[? Hh]]]; discriminate.
  - destruct lo, hi; simpl; split; try discriminate; try reflexivity;
      try (intros H; exfalso; apply H; split; eauto; fail);
      intros _ [[Hl|[? Hl]] [Hh|[? Hh]]]; discriminate.
  - intros iv. destruct lo, hi; simpl; intros [= <-]; split; reflexivity.
  - intros iv. destruct lo, hi; simpl; intros [= <-]; split; reflexivity.
Qed.

Lemma intepretRange_witness :
  intepretRange_float64 (any_nil, any_int 2) = None
  /\ intepretRange_string (any_float64 Sample.two, any_nil) = None
  /\ intepretRange_float64 (any_nil, any_float64 Sample.two)
     = Some (float64.Inf (-1), Sample.two).
Proof.
  split; [|split].
  - apply (intepretRange_total_on_typed_bounds any_nil (any_int 2)).
    intros [_ [H|[f H]]]; discriminate H.
  - apply (intepretRange_total_on_typed_bounds (any_float64 Sample.two) any_nil).
    intros [[H|[s H]] _]; discriminate H.
  - destruct (intepretRange_float64 (any_nil, any_float64 Sample.two))
      as [iv|] eqn:Hiv; [|discriminate Hiv].
    destruct (intepretRange_total_on_typed_bounds any_nil (any_float64 Sample.two))
      as (_ & _ & H & _).
    destruct (H iv Hiv) as [H1 H2].
    rewrite (surjective_pairing iv), H1, H2. reflexivity.
Defined.

(** X6. An interval set without any bound makes every later [Build] fail,
    whatever else is set before or after on other fields: for each of the
    five interval fields, an item that holds the interval of two nil bounds
    does not pass [validate]. *)
Theorem interval_without_bounds_never_builds sets (b : BaseItemBuilder.t) :
  let open_numbers := intepretRange_float64 (any_nil, any_nil) in
  let open_dates := intepretRange_string (any_nil, any_nil) in
  let item := BaseItemBuilder.item b in
  (BaseItem.Strike item = open_numbers
   \/ BaseItem.ContractSize item = open_numbers
   \/ BaseItem.Coupon item = open_numbers
   \/ BaseItem.Expiration item = open_dates
   \/ BaseItem.Maturity item = open_dates) ->
  (BaseItemBuilder.Build sets b).1.2 <> None.
Proof.
  intros open_numbers open_dates item Hopen Hbuild.
  cbn [BaseItemBuilder.Build fst snd] in Hbuild. fold item in Hbuild.
  apply BaseItem_validate_None_iff in Hbuild.
  destruct Hbuild as [_ _ Hs Hc Hp He Hm].
  destruct Hopen as [H|[H|[H|[H|H]]]].
  - destruct (Hs _ H) as [Hboth _]. apply Hboth. split; reflexivity.
  - destruct (Hc _ H) as [Hboth _]. apply Hboth. split; reflexivity.
  - destruct (Hp _ H) as [Hboth _]. apply Hboth. split; reflexivity.
  - destruct (He _ H) as [[Hboth _] _]. apply Hboth. split; reflexivity.
  - destruct (Hm _ H) as [[Hboth _] _]. apply Hboth. split; reflexivity.
Qed.

Lemma interval_without_bounds_witness :
  exists b,
    BaseItemBuilder.SetCoupon (any_nil, any_nil)
      (BaseItemBuilder.SetExchCode "US" BaseItemBuilder.GetBuilder) = Some b
    /\ (BaseItemBuilder.Build Sample.sets
          (BaseItemBuilder.SetCurrency "USD" b)).1.2 <> None.
Proof.
  eexists. split; [reflexivity|].
  apply interval_without_bounds_never_builds.
  right. right. left. reflexivity.
Defined.

(** X7. A setter of an enumerated field writes that field and no other:
    after it the field reads the value set, every other enumerated field
    reads what it did, and the flag and the five intervals are untouched.
    So two setters of different fields commute and of two calls of the same
    setter the last one wins. *)
Theorem set_field_read_back (f g : EnumField) (v v' : string)
    (b : BaseItemBuilder.t) :
  let item' := BaseItemBuilder.item (set_field f v b) in
  let item := BaseItemBuilder.item b in
  field_value f item' = v
  /\ (g <> f -> field_value g item' = field_value g item)
  /\ BaseItem.IncludeUnlistedEquities item' = BaseItem.IncludeUnlistedEquities item
  /\ BaseItem.Strike item' = BaseItem.Strike item
  /\ BaseItem.ContractSize item' = BaseItem.ContractSize item
  /\ BaseItem.Coupon item' = BaseItem.Coupon item
  /\ BaseItem.Expiration item' = BaseItem.Expiration item
  /\ BaseItem.Maturity item' = BaseItem.Maturity item
  /\ (g <> f -> set_field f v (set_field g v' b) = set_field g v' (set_field f v b))
  /\ set_field f v (set_field f v' b) = set_field f v b.
Proof.
  destruct b as [item]. cbv zeta.
  split; [destruct f; reflexivity|].
  split; [intros Hg; destruct f, g; try reflexivity; destruct (Hg eq_refl)|].
  do 6 (split; [destruct f; reflexivity|]).
  split; [|destruct f; reflexivity].
  intros Hg; destruct f, g; try reflexivity; destruct (Hg eq_refl).
Qed.

Lemma set_field_read_back_witness :
  set_field F_currency "AUD" (set_field F_exchCode "AU" BaseItemBuilder.GetBuilder)
  = set_field F_exchCode "AU" (set_field F_currency "AUD" BaseItemBuilder.GetBuilder).
Proof.
  destruct (set_field_read_back F_currency F_exchCode "AUD" "AU"
              BaseItemBuilder.GetBuilder) as (_ & _ & _ & _ & _ & _ & _ & _ & H & _).
  apply H. discriminate.
Defined.

(** ** The ways to a Mapping Item *)

(** X8. [AsBaseItem] undoes [AsMappingItem]: it gives back the Base Item
    with the outcome of its own validation.  A Mapping Item that
    [AsMappingItem] accepts has a Base Item that [AsBaseItem] accepts, and
    an error of the Base Item is the error of [AsMappingItem], unchanged.
    And [AsMappingItem] on the item that the embedded builder builds gives
    what the mapping builder builds. *)
Theorem AsMappingItem_AsBaseItem sets (b_item : BaseItem.t) (idType : string)
    (value : any) (m : MappingItemBuilder.t) :
  let made := BaseItem_AsMappingItem sets b_item idType value in
  MappingItem_AsBaseItem sets made.1 = (b_item, BaseItem.validate sets b_item)
  /\ (made.2 = None -> (MappingItem_AsBaseItem sets made.1).2 = None)
  /\ (forall err, BaseItem.validate sets b_item = Some err -> made.2 = Some err)
  /\ (MappingItemBuilder.Build sets m).1
     = BaseItem_AsMappingItem sets
         (BaseItemBuilder.Build sets (MappingItemBuilder.BaseItemBuilder_ m)).1.1
         (MappingItem.Type_ (MappingItemBuilder.item m))
         (MappingItem.Value (MappingItemBuilder.item m)).
Proof.
  cbv zeta. unfold BaseItem_AsMappingItem, MappingItem_AsBaseItem.
  cbn [fst snd MappingItem.BaseItem_].
  split; [reflexivity|]. split; [|split; [|reflexivity]].
  - unfold MappingItem.validate. cbn [MappingItem.BaseItem_].
    destruct (BaseItem.validate sets b_item); [discriminate | reflexivity].
  - intros err Herr. unfold MappingItem.validate. cbn [MappingItem.BaseItem_].
    rewrite Herr. reflexivity.
Qed.

Lemma AsMappingItem_AsBaseItem_witness :
  (BaseItem_AsMappingItem Sample.sets
     (BaseItem.with_Currency "zigzagzig" BaseItem.zero) "zigzagzig" any_nil).2
  = Some (ErrBadEnum "currency")
  /\ (MappingItem_AsBaseItem Sample.sets
        (BaseItem_AsMappingItem Sample.sets Sample.valid_2 "TICKER"
           (any_string "IBM")).1).2 = None.
Proof.
  split.
  - destruct (AsMappingItem_AsBaseItem Sample.sets
                (BaseItem.with_Currency "zigzagzig" BaseItem.zero) "zigzagzig"
                any_nil Sample2.ticker_IBM) as (_ & _ & H & _).
    apply H. reflexivity.
  - destruct (AsMappingItem_AsBaseItem Sample.sets Sample.valid_2 "TICKER"
                (any_string "IBM") Sample2.ticker_IBM) as (_ & H & _).
    apply H. reflexivity.
Defined.

Lemma promoted_setters (setters : list (BaseItemBuilder.t -> BaseItemBuilder.t))
    (m : MappingItemBuilder.t) :
  let m' := fold_left (fun m set => MappingItemBuilder.promoted set m) setters m in
  MappingItemBuilder.BaseItemBuilder_ m'
  = fold_left (fun b set => set b) setters (MappingItemBuilder.BaseItemBuilder_ m)
  /\ MappingItemBuilder.item m' = MappingItemBuilder.item m.
Proof.
  revert m. induction setters as [|set setters IH]; intros m; simpl.
  - split; reflexivity.
  - destruct (IH (MappingItemBuilder.promoted set m)) as [Hb Hi].
    split; [exact Hb | exact Hi].
Qed.

(** X9. Whatever setters of the embedded builder are called on a mapping
    builder, and in whatever number, [Build] returns the Base Item that a
    base builder reaches with the same calls, together with the identifier
    type and value given to [GetBuilder]; its error is that of
    [MappingItem.validate] on this item. *)
Theorem MappingItemBuilder_builds_like_base sets
    (setters : list (BaseItemBuilder.t -> BaseItemBuilder.t))
    (idType : string) (value : any) :
  let m := fold_left (fun m set => MappingItemBuilder.promoted set m) setters
             (MappingItemBuilder.GetBuilder idType value) in
  let b := fold_left (fun b set => set b) setters BaseItemBuilder.GetBuilder in
  (MappingItemBuilder.Build sets m).1
  = BaseItem_AsMappingItem sets (BaseItemBuilder.Build sets b).1.1 idType value.
Proof.
  intros m b.
  destruct (promoted_setters setters (MappingItemBuilder.GetBuilder idType value))
    as [Hb Hi].
  fold m in Hb, Hi. cbn [MappingItemBuilder.GetBuilder
    MappingItemBuilder.BaseItemBuilder_ MappingItemBuilder.item] in Hb, Hi.
  fold b in Hb.
  unfold MappingItemBuilder.Build, BaseItem_AsMappingItem, BaseItemBuilder.Build.
  cbn [fst snd MappingItemBuilder.item MappingItemBuilder.BaseItemBuilder_].
  rewrite Hb, Hi. reflexivity.
Qed.

(** ** The bulk request *)

(** What one builder contributes. *)
Local Abbreviation built sets m := (MappingItemBuilder.Build sets m).1.1.
Local Abbreviation build_error sets m := (MappingItemBuilder.Build sets m).1.2.

(** X10. [FromMappingItemBuilders] returns a nil error exactly when every
    builder builds without error, and the request is then the former
    request followed by the items of the builders, one for one and in
    their order. *)
Theorem FromMappingItemBuilders_ok sets (builders : list MappingItemBuilder.t)
    (req : MappingRequest) :
  ((FromMappingItemBuilders sets builders req).1 = None <->
   Forall (fun m => build_error sets m = None) builders)
  /\ ((FromMappingItemBuilders sets builders req).1 = None ->
      (FromMappingItemBuilders sets builders req).2
      = req ++ List.map (fun m => built sets m) builders).
Proof.
  revert req. induction builders as [|m builders IH]; intros req.
  - simpl. split; [split; [constructor | reflexivity]|].
    intros _. rewrite app_nil_r. reflexivity.
  - cbn [FromMappingItemBuilders List.map].
    destruct (MappingItemBuilder.Build sets m) as [[item err] m'] eqn:Hm.
    assert (Hitem : built sets m = item) by (rewrite Hm; reflexivity).
    assert (Herr : build_error sets m = err) by (rewrite Hm; reflexivity).
    destruct err as [e|].
    + split; [split; [discriminate|]|discriminate].
      intros Hall. inversion Hall as [|? ? Hhead _]. congruence.
    + destruct (IH (req ++ [item])) as [Hiff Hreq]. split.
      * rewrite Hiff. split.
        -- intros Hall. constructor; assumption.
        -- intros Hall. inversion Hall. assumption.
      * intros Hok. rewrite (Hreq Hok), <- app_assoc. reflexivity.
Qed.

Lemma FromMappingItemBuilders_ok_witness :
  (FromMappingItemBuilders Sample.sets
     [Sample2.ticker_IBM; Sample2.ticker_IBM] []).2
  = [built Sample.sets Sample2.ticker_IBM; built Sample.sets Sample2.ticker_IBM].
Proof.
  destruct (FromMappingItemBuilders_ok Sample.sets
              [Sample2.ticker_IBM; Sample2.ticker_IBM] []) as [_ H].
  apply H. reflexivity.
Defined.

(** X11. When [FromMappingItemBuilders] fails, its error is the error of
    the first builder that does not build, and the request has already
    grown by the items of the builders before that one: the receiver is
    left with a part of the batch. *)
Theorem FromMappingItemBuilders_fails_midway sets
    (builders : list MappingItemBuilder.t) (req : MappingRequest) (err : error) :
  (FromMappingItemBuilders sets builders req).1 = Some err ->
  exists before bad after,
    builders = before ++ bad :: after
    /\ Forall (fun m => build_error sets m = None) before
    /\ build_error sets bad = Some err
    /\ (FromMappingItemBuilders sets builders req).2
       = req ++ List.map (fun m => built sets m) before.
Proof.
  revert req. induction builders as [|m builders IH]; intros req.
  - discriminate.
  - cbn [FromMappingItemBuilders].
    destruct (MappingItemBuilder.Build sets m) as [[item e] m'] eqn:Hm.
    assert (Hitem : built sets m = item) by (rewrite Hm; reflexivity).
    assert (Herr : build_error sets m = e) by (rewrite Hm; reflexivity).
    destruct e as [e|].
    + intros [= <-]. exists [], m, builders.
      repeat split; [constructor | exact Herr | simpl; rewrite app_nil_r; reflexivity].
    + intros Hfail.
      destruct (IH (req ++ [item]) Hfail)
        as (before & bad & after & -> & Hbefore & Hbad & Hreq).
      exists (m :: before), bad, after.
      repeat split; [constructor; assumption | exact Hbad |].
      rewrite Hreq. cbn [List.map]. rewrite <- app_assoc.
      rewrite Hitem. reflexivity.
Qed.

Lemma FromMappingItemBuilders_fails_midway_witness :
  (FromMappingItemBuilders Sample.sets
     [Sample2.ticker_IBM; Sample2.base_ticker_IBM; Sample2.ticker_IBM] []).1
  = Some ErrSecurityType2Required
  /\ exists before bad after,
       [Sample2.ticker_IBM; Sample2.base_ticker_IBM; Sample2.ticker_IBM]
       = before ++ bad :: after
       /\ (FromMappingItemBuilders Sample.sets
             [Sample2.ticker_IBM; Sample2.base_ticker_IBM; Sample2.ticker_IBM] []).2
          = [] ++ List.map (fun m => built Sample.sets m) before.
Proof.
  split; [reflexivity|].
  destruct (FromMappingItemBuilders_fails_midway Sample.sets
              [Sample2.ticker_IBM; Sample2.base_ticker_IBM; Sample2.ticker_IBM]
              [] ErrSecurityType2Required eq_refl)
    as (before & bad & after & Heq & _ & _ & Hreq).
  exists before, bad, after. split; assumption.
Defined.

(** X12. [FromMappingItemBuilders] only ever appends items that pass
    [MappingItem.validate]: if every item of the request is valid before
    the call, every item is valid after it, whether the call fails or
    not. *)
Theorem FromMappingItemBuilders_keeps_valid sets
    (builders : list MappingItemBuilder.t) (req : MappingRequest) :
  Forall (fun item => MappingItem.validate sets item = None) req ->
  Forall (fun item => MappingItem.validate sets item = None)
         (FromMappingItemBuilders sets builders req).2.
Proof.
  revert req. induction builders as [|m builders IH]; intros req Hreq.
  - exact Hreq.
  - cbn [FromMappingItemBuilders].
    destruct (MappingItemBuilder.Build sets m) as [[item e] m'] eqn:Hm.
    assert (Hvalid : MappingItem.validate sets item = e).
    { unfold MappingItemBuilder.Build in Hm.
      cbn [MappingItemBuilder.item] in Hm. congruence. }
    destruct e as [e|]; [exact Hreq|].
    apply IH. apply Forall_app. split; [exact Hreq|].
    constructor; [exact Hvalid | constructor].
Qed.

Lemma FromMappingItemBuilders_keeps_valid_witness :
  Forall (fun item => MappingItem.validate Sample.sets item = None)
         (FromMappingItemBuilders Sample.sets
            [Sample2.ticker_IBM; Sample2.base_ticker_IBM] []).2.
Proof.
  apply FromMappingItemBuilders_keeps_valid. constructor.
Defined.

(** ** Degenerate intervals *)

Lemma float64_gt_irrefl (a : float64.t) : float64.gt a a = false.
Proof.
  unfold float64.gt.
  destruct a as [s | s | | s m e]; simpl; try reflexivity.
  - destruct s; reflexivity.
  - destruct s; rewrite Z.compare_refl;
      change (Pos.compare_cont Eq m m) with (Pos.compare m m);
      rewrite Pos.compare_refl; reflexivity.
Qed.

(** X13. The order test of an interval is strict: an interval whose two
    bounds are the same real number, or the same date, passes [validate]. *)
Theorem interval_of_one_point_passes (a : float64.t) (d : string) (t : time.Time) :
  (float64.is_real a = true -> validate (a, a) = None)
  /\ (time.parse_DateOnly d = Some t -> validate (d, d) = None).
Proof.
  split.
  - intros Ha. apply interval_float64_valid. split; simpl.
    + intros [Hinf _]. rewrite (float64_real_not_Inf a _ Ha) in Hinf.
      discriminate Hinf.
    + apply float64_gt_irrefl.
  - intros Hd. apply interval_string_valid.
    pose proof (parse_DateOnly_populated d t Hd) as Hne.
    repeat split; simpl.
    + intros [H _]. exact (Hne H).
    + intros _. congruence.
    + intros _. congruence.
    + intros s e Hs He. rewrite Hd in Hs, He.
      injection Hs as <-. injection He as <-. apply After_irrefl.
Qed.

Lemma interval_of_one_point_witness :
  validate (Sample.two, Sample.two) = None
  /\ validate ("2020-02-29", "2020-02-29") = None.
Proof.
  destruct (interval_of_one_point_passes Sample.two "2020-02-29"
              (time.Date 2020 2 29)) as [Hf Hd].
  split; [apply Hf | apply Hd]; reflexivity.
Defined.

(** X14. [validate] has no test for a NaN: a numeric interval with a NaN
    as a bound passes, whatever the other bound is, and so does a Base Item
    that is valid but for such a strike. *)
Theorem NaN_bound_passes sets (item : BaseItem.t) (a : float64.t) :
  validate (float64.NaN, a) = None
  /\ validate (a, float64.NaN) = None
  /\ (BaseItem.validate sets (BaseItem.with_Strike None item) = None ->
      BaseItem.validate sets
        (BaseItem.with_Strike (Some (a, float64.NaN)) item) = None).
Proof.
  destruct (NaN_interval_passes a) as [Hlo Hhi].
  split; [exact Hlo|]. split; [exact Hhi|].
  intros Hother. apply BaseItem_validate_None_iff.
  apply BaseItem_validate_None_iff in Hother.
  destruct Hother as [Henum Hexcl Hs Hc Hp He Hm].
  constructor; try assumption.
  cbn [BaseItem.with_Strike BaseItem.Strike]. intros iv [= <-].
  apply interval_float64_valid. exact Hhi.
Qed.

Lemma NaN_bound_passes_witness :
  BaseItem.validate Sample.sets
    (BaseItem.with_Strike (Some (Sample.two, float64.NaN)) Sample.valid_1) = None.
Proof.
  destruct (NaN_bound_passes Sample.sets Sample.valid_1 Sample.two) as (_ & _ & H).
  apply H. reflexivity.
Defined.

(** ** Calls *)

(** The status codes that [httpStatusMap] lists. *)
Lemma httpStatusMap_lookup (code : Z) :
  httpStatusMap !! code = None <->
  ~ In code [400; 401; 404; 405; 406; 413; 415; 429; 500; 503].
Proof.
  unfold httpStatusMap. rewrite <- not_elem_of_list_to_map.
  cbn [fmap list_fmap fst]. rewrite list_elem_of_In. reflexivity.
Qed.

Section FurtherCalls.

Context {Server : Type}.
Variable json_Marshal : searchOrFilterRequest -> option string.
Variable json_Marshal_MappingRequest : MappingRequest -> option string.
Variable http_Do : Request -> Server -> DoResult * Server.
Variable json_Unmarshal_SearchResponse : string -> SearchResponse.t * option error.
Variable json_Unmarshal_FilterResponse : string -> FilterResponse.t * option error.
Variable json_Unmarshal_MappingResponses :
  string -> list SingleMappingResponse.t * option error.

Local Abbreviation post :=
  (postBaseItem json_Marshal http_Do).
Local Abbreviation Search' :=
  (Search json_Marshal http_Do json_Unmarshal_SearchResponse).
Local Abbreviation Filter' :=
  (Filter json_Marshal http_Do json_Unmarshal_FilterResponse).
Local Abbreviation SearchNext :=
  (SearchResponse_Next json_Marshal http_Do json_Unmarshal_SearchResponse).
Local Abbreviation Fetch' :=
  (Fetch json_Marshal_MappingRequest http_Do json_Unmarshal_MappingResponses).
Local Abbreviation follow' :=
  (follow json_Marshal http_Do json_Unmarshal_SearchResponse).
Local Abbreviation the_request w endpoint body :=
  (newRequest (apiUrl (config w)) (apiKey (config w)) endpoint body).





Lemma Search_world (item : BaseItem.t) (query start : string) (w : World Server) :
  config (Search' item query start w).2 = config w
  /\ exists more,
       sent (Search' item query start w).2 = sent w ++ more
       /\ (length more <= 1)%nat
       /\ Forall (fun req => Method req = "POST"
                             /\ URL req = apiUrl (config w) +:+ "/search") more.
Proof.
  destruct (Search_retains json_Marshal http_Do json_Unmarshal_SearchResponse
              item query start w) as (_ & _ & ->).
  pose proof (postBaseItem_sent json_Marshal http_Do SearchResponse.zero
                json_Unmarshal_SearchResponse "/search" item query start w) as H.
  cbv zeta in H.
  destruct (json_Marshal _) as [body|].
  - destruct H as [Hc Hs]. split; [exact Hc|].
    exists [the_request w "/search" body]. split; [exact Hs|].
    split; [simpl; lia|]. repeat constructor.
  - rewrite H. split; [reflexivity|]. exists []. split.
    + cbn [snd]. rewrite app_nil_r. reflexivity.
    + split; [simpl; lia | constructor].
Qed.



End FurtherCalls.





(** ** Intervals open on one side *)

Section Encoding.

Context {Server : Type}.
Variable json_Marshal : searchOrFilterRequest -> option string.
Variable http_Do : Request -> Server -> DoResult * Server.
Variable json_Unmarshal_SearchResponse : string -> SearchResponse.t * option error.

(** [encoding/json] has no encoding for an infinity or a NaN. *)
Hypothesis json_Marshal_rejects_non_real :
  forall r, carries_non_real (BaseItem_ r) = true -> json_Marshal r = None.

(** X21. With an encoder that, like [encoding/json], rejects infinities: a
    numeric interval set with one bound only passes [validate], since its
    absent bound is kept as an infinity, and for the same reason no
    [Search] of an item that holds it reaches the server: the call fails
    on the encoding and sends nothing. *)
Theorem one_sided_interval_is_never_sent (b b' : BaseItemBuilder.t)
    (x : float64.t) (query start : string) (w : World Server) :
  float64.is_real x = true ->
  (BaseItemBuilder.SetStrike (any_float64 x, any_nil) b = Some b'
   \/ BaseItemBuilder.SetStrike (any_nil, any_float64 x) b = Some b'
   \/ BaseItemBuilder.SetContractSize (any_float64 x, any_nil) b = Some b'
   \/ BaseItemBuilder.SetContractSize (any_nil, any_float64 x) b = Some b'
   \/ BaseItemBuilder.SetCoupon (any_float64 x, any_nil) b = Some b'
   \/ BaseItemBuilder.SetCoupon (any_nil, any_float64 x) b = Some b') ->
  (exists iv,
     (BaseItem.Strike (BaseItemBuilder.item b') = Some iv
      \/ BaseItem.ContractSize (BaseItemBuilder.item b') = Some iv
      \/ BaseItem.Coupon (BaseItemBuilder.item b') = Some iv)
     /\ validate iv = None)
  /\ Search json_Marshal http_Do json_Unmarshal_SearchResponse
       (BaseItemBuilder.item b') query start w
     = ((SearchResponse.mk [] "" "" (BaseItemBuilder.item b') query,
         Some ErrMarshal), w).
Proof.
  intros Hx Hset.
  assert (Hhi : validate (x, float64.Inf 1) = None).
  { apply interval_float64_valid. split; simpl.
    - intros [Hinf _]. rewrite (float64_real_not_Inf x _ Hx) in Hinf.
      discriminate Hinf.
    - apply float64_not_gt_pos_Inf; [exact Hx | reflexivity]. }
  assert (Hlo : validate (float64.Inf (-1), x) = None).
  { apply interval_float64_valid. split; simpl.
    - intros [_ Hinf]. rewrite (float64_real_not_Inf x _ Hx) in Hinf.
      discriminate Hinf.
    - apply float64_neg_Inf_not_gt; [reflexivity | exact Hx]. }
  assert (Hcarries : carries_non_real (BaseItemBuilder.item b') = true).
  { unfold carries_non_real.
    destruct Hset as [H|[H|[H|[H|[H|H]]]]]; injection H as <-; simpl;
      rewrite ?orb_true_r; reflexivity. }
  split.
  - destruct Hset as [H|[H|[H|[H|[H|H]]]]]; injection H as <-;
      eexists; (split; [simpl; eauto | first [exact Hhi | exact Hlo]]).
  - unfold Search, postBaseItem, bind.
    rewrite (json_Marshal_rejects_non_real
               {| BaseItem_ := BaseItemBuilder.item b';
                  Query := query; Start := start |} Hcarries).
    reflexivity.
Qed.

End Encoding.

Lemma one_sided_interval_witness :
  exists b',
    BaseItemBuilder.SetStrike (any_nil, any_float64 Sample.two)
      BaseItemBuilder.GetBuilder = Some b'
    /\ (BaseItemBuilder.Build Sample.sets b').1.2 = None
    /\ Search Sample2.json_Marshal_strict Sample.http_Do
         Sample.json_Unmarshal_SearchResponse
         (BaseItemBuilder.item b') "ibm" "" Sample.world
       = ((SearchResponse.mk [] "" "" (BaseItemBuilder.item b') "ibm",
           Some ErrMarshal), Sample.world).
Proof.
  eexists. split; [reflexivity|]. split; [reflexivity|].
  eapply (one_sided_interval_is_never_sent Sample2.json_Marshal_strict
            Sample.http_Do Sample.json_Unmarshal_SearchResponse)
    with (x := Sample.two) (b := BaseItemBuilder.GetBuilder).
  - intros r Hr. unfold Sample2.json_Marshal_strict. rewrite Hr. reflexivity.
  - reflexivity.
  - right. left. reflexivity.
Defined.

(** ** Fields without a test *)

(** Neither the option type nor the flag for unlisted equities has a
    part in the validation: whatever they are set to, before or after any
    other setter, [Build] returns the same error. *)
Theorem option_type_and_flag_not_validated sets (b : BaseItemBuilder.t)
    (optionType : string) (include : bool) (f : EnumField) (v : string) :
  (BaseItemBuilder.Build sets
     (BaseItemBuilder.SetIncludeUnlistedEquities include
        (BaseItemBuilder.SetOptionType optionType b))).1.2
  = (BaseItemBuilder.Build sets b).1.2
  /\ (BaseItemBuilder.Build sets
        (set_field f v
           (BaseItemBuilder.SetIncludeUnlistedEquities include
              (BaseItemBuilder.SetOptionType optionType b)))).1.2
     = (BaseItemBuilder.Build sets (set_field f v b)).1.2.
Proof.
  split; [reflexivity|]. destruct f; reflexivity.
Qed.

(** The page of the values of a field, under the base URL of start-up. *)
Lemma valuesUrl_after_init {Server : Type} (property : string) (w : World Server) :
  (bind init (fun _ => valuesUrl property) w).1
  = "https://api.openfigi.com/v3" +:+ "/mapping/values/" +:+ property.
Proof. reflexivity. Qed.
